(** * JFK customs simulation: a shallow embedding of [customs_obj.py] and of
      the greedy search of [customs.py]

    The two Python modules are Python 2 sources (both start with
    [from __future__ import print_function], and [_get_ttime] relies on [/]
    between two ints being floor division).  Integers are modelled as [Z],
    strings as [string], Python lists as [list], object references as
    locations into an explicit store, and exceptions as an error result that
    keeps the store as it was when the exception was raised. *)

From Stdlib Require Import ZArith String Ascii List Bool Lia DecimalString.
From Stdlib Require DecimalPos.
From stdpp Require Import base list.
Import ListNotations.

Local Open Scope string_scope.
Local Open Scope list_scope.
Local Open Scope Z_scope.

(** ** Python values and exceptions *)

Module Py.

(** The exception classes the embedded code can raise. *)
Inductive exn : Type :=
| NameError        (* a free name that is bound nowhere *)
| SystemError      (* a location outside the store; no Python run gets here *)
| AttributeError   (* attribute missing on the object *)
| IndexError       (* [pop] of an empty list, [values[0]] of an empty frame *)
| KeyError         (* a column label that the frame does not have *)
| TypeError        (* arithmetic on [None], positional index [None] *)
| ValueError       (* [int] of a non-numeral, unpacking a wrong arity *)
| OperationalError. (* sqlite3: a column added twice *)

Inductive result (A : Type) : Type :=
| Ok (a : A)
| Raise (e : exn).
Arguments Ok {A} a.
Arguments Raise {A} e.

#[global] Instance result_ret : MRet result := fun A a => Ok a.

#[global] Instance result_bind : MBind result := fun A B k r =>
  match r with
  | Ok a => k a
  | Raise e => Raise e
  end.

#[global] Instance result_throw : MThrow exn result := fun A e => Raise e.

(** Code that mutates objects: a computation over a store [S] that returns a
    value or raises, and in both cases leaves the store as it then is (an
    exception does not undo the assignments made before it). *)
Definition M (S A : Type) : Type := S -> result A * S.

#[global] Instance M_ret S : MRet (M S) := fun A a s => (Ok a, s).

#[global] Instance M_bind S : MBind (M S) := fun A B k m s =>
  match m s with
  | (Ok a, s') => k a s'
  | (Raise e, s') => (Raise e, s')
  end.

#[global] Instance M_throw S : MThrow exn (M S) := fun A e s => (Raise e, s).

Definition get {S} : M S S := fun s => (Ok s, s).
Definition put {S} (s : S) : M S unit := fun _ => (Ok tt, s).
Definition modify {S} (f : S -> S) : M S unit := fun s => (Ok tt, f s).
Definition lift {S A} (r : result A) : M S A := fun s => (r, s).

(** Code with a [while] loop that need not end: [None] when the loop is still
    running after the given number of iterations. *)
Definition F (S A : Type) : Type := S -> option (result A * S).

#[global] Instance F_ret S : MRet (F S) := fun A a s => Some (Ok a, s).



(** [str(n)] for an int. *)
Definition str (n : Z) : string := NilZero.string_of_int (Z.to_int n).

Definition is_digit (c : ascii) : bool :=
  let n := Z.of_nat (nat_of_ascii c) in (48 <=? n) && (n <=? 57).

Definition digit_val (c : ascii) : Z := Z.of_nat (nat_of_ascii c) - 48.

(** Whitespace that [int] strips: space, \t, \n, \v, \f, \r. *)
Definition is_space (c : ascii) : bool :=
  let n := Z.of_nat (nat_of_ascii c) in (n =? 32) || ((9 <=? n) && (n <=? 13)).

Fixpoint lstrip (s : list ascii) : list ascii :=
  match s with
  | c :: r => if is_space c then lstrip r else s
  | [] => []
  end.

Definition strip (s : list ascii) : list ascii :=
  rev (lstrip (rev (lstrip s))).

Fixpoint digits_val (acc : Z) (s : list ascii) : option Z :=
  match s with
  | [] => Some acc
  | c :: r => if is_digit c then digits_val (10 * acc + digit_val c) r else None
  end.

Definition unsigned_val (s : list ascii) : result Z :=
  match s with
  | [] => Raise ValueError
  | _ :: _ => match digits_val 0 s with
              | Some n => Ok n
              | None => Raise ValueError
              end
  end.

(** [int(s)] for a str, base 10: surrounding whitespace, an optional sign,
    then at least one decimal digit; anything else is a [ValueError]. *)
Definition int (s : string) : result Z :=
  match strip (list_ascii_of_string s) with
  | "-"%char :: r => n ← unsigned_val r; Ok (- n)
  | "+"%char :: r => unsigned_val r
  | r => unsigned_val r
  end.

(** [s.split(sep)] for a one-character separator: never an empty list. *)
Fixpoint split (sep : ascii) (s : string) : list string :=
  match s with
  | EmptyString => [EmptyString]
  | String c r =>
      if Ascii.eqb c sep then EmptyString :: split sep r
      else match split sep r with
           | w :: ws => String c w :: ws
           | [] => [String c EmptyString]
           end
  end.

End Py.

Import Py.

(** ** Helper functions of [customs_obj.py] *)

(** [_get_sec(time_str)]: [h, m, s = time_str.split(':')] raises
    [ValueError] unless there are exactly three fields. *)
Definition _get_sec (time_str : string) : result Z :=
  match Py.split ":" time_str with
  | [h; m; s] =>
      h' ← Py.int h; m' ← Py.int m; s' ← Py.int s;
      Ok (h' * 3600 + m' * 60 + s')
  | _ => Raise ValueError
  end.

(** [_get_ttime(seconds)] for an int argument.  [seconds/3600],
    [int(seconds%3600)/60], [h/10] and the like divide an int by an int,
    which is floor division in Python 2, so every field is an int and [str]
    prints it without a fraction. *)
Definition _get_ttime (seconds : Z) : string :=
  let h := seconds / 3600 in
  let m := (seconds mod 3600) / 60 in
  let s := (seconds mod 3600) mod 60 in
  let HH := if h / 10 =? 0 then ("0" ++ Py.str h)%string else Py.str h in
  let MM := if m / 10 =? 0 then ("0" ++ Py.str m)%string else Py.str m in
  let SS := if s / 10 =? 0 then ("0" ++ Py.str s)%string else Py.str s in
  (HH ++ ":" ++ MM ++ ":" ++ SS)%string.

(** The shape "HH:MM:SS": eight characters, digits around two colons. *)
Definition is_HHMMSS (t : string) : bool :=
  match list_ascii_of_string t with
  | [a; b; c1; c; d; c2; e; f] =>
      Py.is_digit a && Py.is_digit b && Ascii.eqb c1 ":" &&
      Py.is_digit c && Py.is_digit d && Ascii.eqb c2 ":" &&
      Py.is_digit e && Py.is_digit f
  | _ => false
  end.


(** ** Service-time sampling

    [numpy.random] is outside the repository: its generator state is a type
    [Rng], and [int(np.random.triangular(lower, mode, upper))] a function that
    returns the truncated draw and the next generator state. *)

Class NpRandom (Rng : Type) : Type :=
  int_triangular : Z -> Z -> Z -> Rng -> Z * Rng.

Definition service_dist_dom : string * string * string :=
  ("00:00:30", "00:00:45", "00:02:00").
Definition service_dist_intl : string * string * string :=
  ("00:00:45", "00:01:00", "00:02:15").

Definition draw `{NpRandom Rng} (lower mode upper : Z) : M Rng Z := fun rng =>
  let '(sample, rng') := int_triangular lower mode upper rng in (Ok sample, rng').

(** [sample_from_triangular(service_dist)] *)
Definition sample_from_triangular `{NpRandom Rng} (service_dist : string * string * string)
    : M Rng Z :=
  lower ← lift (_get_sec service_dist.1.1);
  mode ← lift (_get_sec service_dist.1.2);
  upper ← lift (_get_sec service_dist.2);
  draw lower mode upper.

(** ** Objects of [customs_obj.py]

    A [Passenger] is a mutable object that several containers (and the free
    name [passenger] of [ServiceAgent.serve]) may point to at once, so
    passengers live in a store and are referred to by location. *)

Definition loc : Type := nat.

(** A pandas frame, as far as the code looks into one: column labels and rows
    of cells (a cell is an int or a str). *)
Module DataFrame.

Inductive cell : Type :=
| Int (n : Z)
| Str (s : string).

Definition cell_eqb (a b : cell) : bool :=
  match a, b with
  | Int x, Int y => x =? y
  | Str x, Str y => String.eqb x y
  | _, _ => false
  end.

Record t : Type := mk { columns : list string; rows : list (list cell) }.

(** Position of a column label, [columns.get_loc(label)]. *)
Fixpoint get_loc (label : string) (cols : list string) : option nat :=
  match cols with
  | [] => None
  | c :: r => if String.eqb c label then Some 0%nat else S <$> get_loc label r
  end.

(** [frame[label]], the cells of one column. *)
Definition column (label : string) (f : t) : result (list cell) :=
  match get_loc label (columns f) with
  | None => Raise KeyError
  | Some i => Ok (omap (fun row : list cell => row !! i) (rows f))
  end.

(** [Series.unique()]: the values in order of first appearance. *)
Fixpoint unique (seen l : list cell) : list cell :=
  match l with
  | [] => []
  | c :: r =>
      if existsb (cell_eqb c) seen then unique seen r
      else c :: unique (c :: seen) r
  end.

(** [frame[frame[label] == v]], the rows whose cell under [label] is [v]. *)
Definition select (label : string) (v : cell) (f : t) : result t :=
  match get_loc label (columns f) with
  | None => Raise KeyError
  | Some i =>
      Ok (mk (columns f)
            (List.filter (fun row : list cell =>
                            match row !! i with
                            | Some c => cell_eqb c v
                            | None => false
                            end) (rows f)))
  end.

End DataFrame.

(** The sqlite database behind [PlaneDispatcher], as the tables and columns
    the two queries of [dispatch_plane] read. *)
Module Db.

Record arrival : Type := mk_arrival {
  a_id : Z;
  a_origin : string;
  a_airport_code : string;
  a_arrival_time : string;
  a_airline : string;
  a_flight_num : string;
  a_terminal : string;
  a_code_share : string }.

Record airport : Type := mk_airport { ap_code : string; ap_country : string }.

(** A row of [passengers]; [p_service_time] is the column that
    [init_service_times] of [customs.py] adds ([None] for NULL). *)
Record passenger : Type := mk_passenger {
  p_id : Z;
  p_flight_num : string;
  p_first_name : string;
  p_last_name : string;
  p_birthdate : string;
  p_nationality : string;
  p_service_time : option Z }.

Record t : Type := mk {
  arrivals : list arrival;
  airports : list airport;
  passengers : list passenger;
  has_service_time : bool }.   (* whether [passengers] has the added column *)

(** [SELECT ... FROM arrivals LEFT JOIN airports ON arrivals.airport_code =
    airports.code WHERE arrivals.code_share = '' AND arrivals.arrival_time =
    time AND airports.country != "United States"]: one row for each pair of
    an arrival and an airport of its code that passes the filter (an arrival
    without airport joins a NULL country, which the filter drops). *)
Definition international_arrivals (db : t) (time : string) : list arrival :=
  flat_map (fun a =>
    flat_map (fun ap =>
      if String.eqb (a_airport_code a) (ap_code ap)
         && String.eqb (a_code_share a) EmptyString
         && String.eqb (a_arrival_time a) time
         && negb (String.eqb (ap_country ap) "United States")
      then [a] else []) (airports db)) (arrivals db).

(** [SELECT ... FROM passengers WHERE flight_num = flight_num] *)
Definition manifest (db : t) (flight_num : string) : list passenger :=
  List.filter (fun p => String.eqb (p_flight_num p) flight_num) (passengers db).

End Db.

Module Passenger.

Record t : Type := mk {
  id : Z;
  flight_num : string;
  arrival_time : string;
  first_name : string;
  last_name : string;
  birthdate : string;
  nationality : string;
  enque_time : Z;
  soujourn_time : Z;
  service_time : option Z;   (* [None] when the nationality is neither label *)
  connect_flight : bool;
  processed : bool }.

Definition set_soujourn_time (v : Z) (p : t) : t :=
  mk (id p) (flight_num p) (arrival_time p) (first_name p) (last_name p)
     (birthdate p) (nationality p) (enque_time p) v (service_time p)
     (connect_flight p) (processed p).

Definition set_processed (v : bool) (p : t) : t :=
  mk (id p) (flight_num p) (arrival_time p) (first_name p) (last_name p)
     (birthdate p) (nationality p) (enque_time p) (soujourn_time p)
     (service_time p) (connect_flight p) v.

Section Creation.
Context `{NpRandom Rng}.

(** [Passenger.init_service_time(self)]; falling off the [elif] returns
    [None] without a draw. *)
Definition init_service_time (nationality : string) : M Rng (option Z) :=
  if String.eqb nationality "domestic" then
    d ← sample_from_triangular service_dist_dom; mret (Some d)
  else if String.eqb nationality "foreign" then
    d ← sample_from_triangular service_dist_intl; mret (Some d)
  else mret None.

(** [Passenger.__init__]: the service time is drawn here, once for each
    object built. *)
Definition __init__ (pid : Z) (flight_num arrival_time first_name last_name
    birthdate nationality : string) : M Rng t :=
  enque ← lift (_get_sec arrival_time);
  d ← init_service_time nationality;
  mret (mk pid flight_num arrival_time first_name last_name birthdate nationality
           enque (-1) d false false).

End Creation.

End Passenger.

(** The object a [ServiceAgent] keeps in [output_queue].  [Customs.__init__]
    passes a [ServicedPassengers] instance, whose only attribute is the list
    [passengers]; the docstrings of [Subsection] and [ParallelServer] call the
    same argument a python list.  Both are kept apart: a list has [append], a
    [ServicedPassengers] has not. *)
Module Output.

Inductive t : Type :=
| ServicedPassengers (passengers : list loc)
| PyList (items : list loc).

Definition contents (o : t) : list loc :=
  match o with
  | ServicedPassengers l => l
  | PyList l => l
  end.

End Output.

(** The objects shared by all servers: the passenger store and the output
    object. *)
Module Shared.

Record t : Type := mk { heap : list Passenger.t; output : Output.t }.

Definition set_heap (h : list Passenger.t) (s : t) : t := mk h (output s).
Definition set_output (o : Output.t) (s : t) : t := mk (heap s) o.

End Shared.

(** The free names that the methods read in the module's global namespace.
    [customs_obj.py] assigns none of them ([module_globals]); a binding can
    only come from outside the module. *)
Module Globals.

Record t : Type := mk {
  GLOBAL_TIME : option Z;
  passenger : option loc;
  subsections : option (list nat) }.

Definition module_globals : t := mk None None None.

Definition lookup {A} (name : t -> option A) (g : t) : result A :=
  match name g with
  | Some v => Ok v
  | None => Raise NameError
  end.

End Globals.

Module ServiceAgent.

Record t : Type := mk {
  online : bool;
  id : DataFrame.cell;
  queue : list loc;
  is_serving : bool;
  current_passenger : option loc;
  max_queue_size : option Z }.

Definition set_online (v : bool) (s : t) : t :=
  mk v (id s) (queue s) (is_serving s) (current_passenger s) (max_queue_size s).
Definition set_queue (v : list loc) (s : t) : t :=
  mk (online s) (id s) v (is_serving s) (current_passenger s) (max_queue_size s).
Definition set_is_serving (v : bool) (s : t) : t :=
  mk (online s) (id s) (queue s) v (current_passenger s) (max_queue_size s).
Definition set_current_passenger (v : option loc) (s : t) : t :=
  mk (online s) (id s) (queue s) (is_serving s) v (max_queue_size s).

(** [ServiceAgent.__init__(server_id, output_queue)]; the output object is
    the shared one of [Shared.t]. *)
Definition __init__ (server_id : DataFrame.cell) : t :=
  mk false server_id [] false None None.

(** State of a method call: the receiver and the shared objects. *)
Definition St : Type := t * Shared.t.

Definition self : M St t := fun st => (Ok st.1, st).
Definition update (f : t -> t) : M St unit := modify (fun st => (f st.1, st.2)).

(** [self.queue.pop(0)] *)
Definition queue_pop0 : M St loc := fun st =>
  match queue st.1 with
  | [] => (Raise IndexError, st)
  | p :: q => (Ok p, (set_queue q st.1, st.2))
  end.

(** Attribute read and write on the passenger object at a location. *)
Definition getattr {A} (f : Passenger.t -> A) (l : loc) : M St A := fun st =>
  match Shared.heap st.2 !! l with
  | Some p => (Ok (f p), st)
  | None => (Raise SystemError, st)
  end.

Definition setattr (f : Passenger.t -> Passenger.t) (l : loc) : M St unit := fun st =>
  match Shared.heap st.2 !! l with
  | Some p => (Ok tt, (st.1, Shared.set_heap (<[l := f p]> (Shared.heap st.2)) st.2))
  | None => (Raise SystemError, st)
  end.

(** [self.output_queue.append(p)] *)
Definition output_append (l : loc) : M St unit := fun st =>
  match Shared.output st.2 with
  | Output.ServicedPassengers _ => (Raise AttributeError, st)
  | Output.PyList items =>
      (Ok tt, (st.1, Shared.set_output (Output.PyList (items ++ [l])) st.2))
  end.

(** [int + x] where [x] may be [None]. *)
Definition add_int (a : Z) (b : option Z) : M St Z :=
  match b with
  | Some d => mret (a + d)
  | None => mthrow TypeError
  end.

(** [ServiceAgent.serve(self)].  The names [passenger] and [GLOBAL_TIME] are
    free in the method body, hence looked up in the module globals [g]. *)
Definition serve (g : Globals.t) : M St unit :=
  s ← self;
  (if is_serving s then mret tt
   else
     p ← queue_pop0;
     update (set_current_passenger (Some p));;
     update (set_is_serving true);;
     now ← lift (Globals.lookup Globals.GLOBAL_TIME g);
     gp ← lift (Globals.lookup Globals.passenger g);
     d ← getattr Passenger.service_time gp;
     v ← add_int now d;
     setattr (Passenger.set_soujourn_time v) gp);;
  s ← self;
  if is_serving s then
    gp ← lift (Globals.lookup Globals.passenger g);
    sj ← getattr Passenger.soujourn_time gp;
    now ← lift (Globals.lookup Globals.GLOBAL_TIME g);
    if now <? sj then mret tt
    else if sj =? now then
      setattr (Passenger.set_processed true) gp;;
      output_append gp;;
      update (set_is_serving false);;
      update (set_current_passenger None)
    else mret tt
  else mret tt.

End ServiceAgent.

Module ParallelServer.

Record t : Type := mk {
  server_list : list ServiceAgent.t;
  has_space_in_a_server_queue : bool;
  queue_size : Z;
  min_queue : option nat }.   (* pointer to a server of [server_list], or [None] *)

Definition set_server_list (v : list ServiceAgent.t) (p : t) : t :=
  mk v (has_space_in_a_server_queue p) (queue_size p) (min_queue p).

(** [row['id']] of every row of the subsection's frame. *)
Definition row_id (arch : DataFrame.t) (row : list DataFrame.cell) : result DataFrame.cell :=
  match DataFrame.get_loc "id" (DataFrame.columns arch) with
  | None => Raise KeyError
  | Some i => match row !! i with
              | Some c => Ok c
              | None => Raise IndexError
              end
  end.

Fixpoint init_server_loop (arch : DataFrame.t) (rows : list (list DataFrame.cell))
    (rtn : list ServiceAgent.t) : result (list ServiceAgent.t) :=
  match rows with
  | [] => Ok rtn
  | row :: rest =>
      i ← row_id arch row;
      init_server_loop arch rest (rtn ++ [ServiceAgent.__init__ i])
  end.

(** [ParallelServer.init_server_list]; the metadata line
    [subsection_arch['subsection'].unique()[0]] needs the column and a row. *)
Definition init_server_list (subsection_arch : DataFrame.t) : result (list ServiceAgent.t) :=
  labels ← DataFrame.column "subsection" subsection_arch;
  match DataFrame.unique [] labels with
  | [] => Raise IndexError
  | server_type :: _ =>
      init_server_loop subsection_arch (DataFrame.rows subsection_arch) []
  end.

Definition __init__ (subsection_arch : DataFrame.t) : result t :=
  l ← init_server_list subsection_arch;
  Ok (mk l true 0 None).

(** State of a method call on the pool: the pool and the shared objects. *)
Definition St : Type := t * Shared.t.

(** [for server in servers: if len(server.queue) > 0: server.serve()];
    an exception leaves the servers not yet visited as they were. *)
Fixpoint service_loop (g : Globals.t) (servers : list ServiceAgent.t) (sh : Shared.t)
    : result unit * (list ServiceAgent.t * Shared.t) :=
  match servers with
  | [] => (Ok tt, ([], sh))
  | server :: rest =>
      if (0 <? length (ServiceAgent.queue server))%nat then
        match ServiceAgent.serve g (server, sh) with
        | (Ok _, (server', sh')) =>
            let '(r, (rest', sh'')) := service_loop g rest sh' in
            (r, (server' :: rest', sh''))
        | (Raise e, (server', sh')) => (Raise e, (server' :: rest, sh'))
        end
      else
        let '(r, (rest', sh')) := service_loop g rest sh in
        (r, (server :: rest', sh'))
  end.

(** [ParallelServer.service_passengers(self)] *)
Definition service_passengers (g : Globals.t) : M St unit := fun st =>
  let '(r, (l, sh)) := service_loop g (server_list st.1) st.2 in
  (r, (set_server_list l st.1, sh)).

(** [len(server.queue) < server.max_queue_size]: Python 2 orders [None]
    below every int, so the comparison is [False] while the bound is [None]. *)
Definition len_lt (q : list loc) (bound : option Z) : bool :=
  match bound with
  | Some k => Z.of_nat (length q) <? k
  | None => false
  end.

(** The guard shared by the two scans:
    [len(server.queue) < server.max_queue_size and server.online is True]. *)
Definition qualifies (server : ServiceAgent.t) : bool :=
  len_lt (ServiceAgent.queue server) (ServiceAgent.max_queue_size server)
  && ServiceAgent.online server.

Fixpoint min_queue_loop (servers : list ServiceAgent.t) (i : nat)
    (min_queue : option (nat * ServiceAgent.t)) : option (nat * ServiceAgent.t) :=
  match servers with
  | [] => min_queue
  | server :: rest =>
      min_queue_loop rest (S i)
        (if qualifies server then
           match min_queue with
           | None => Some (i, server)
           | Some (_, m) =>
               if (length (ServiceAgent.queue server) <=? length (ServiceAgent.queue m))%nat
               then Some (i, server)
               else min_queue
           end
         else min_queue)
  end.

(** [ParallelServer.update_min_queue(self)]: the server returned, with its
    position in [server_list], or [None]. *)
Definition update_min_queue (self : t) : option (nat * ServiceAgent.t) :=
  min_queue_loop (server_list self) 0 None.

Fixpoint has_space_loop (servers : list ServiceAgent.t) : bool :=
  match servers with
  | [] => false
  | server :: rest => if qualifies server then true else has_space_loop rest
  end.

(** [ParallelServer.update_has_space_in_a_server_queue(self)] *)
Definition update_has_space_in_a_server_queue (self : t) : bool :=
  has_space_loop (server_list self).

End ParallelServer.

Module AssignmentAgent.

Record t : Type := mk { queue : list loc; current_passenger : option loc }.

(** [self.current_passenger = self.queue[0] if len(self.queue) > 0 else None]
    on the list just created. *)
Definition __init__ : t := mk [] None.

(** What an attribute of an [AssignmentAgent] instance holds. *)
Inductive attr : Type :=
| AQueue (q : list loc)
| ACurrent (p : option loc).

(** Instance attribute lookup: [__init__] sets [queue] and
    [current_passenger] and nothing else. *)
Definition getattr (self : t) (name : string) : result attr :=
  if String.eqb name "queue" then Ok (AQueue (queue self))
  else if String.eqb name "current_passenger" then Ok (ACurrent (current_passenger self))
  else Raise AttributeError.

(** State of a method call: the agent, its pool and the shared objects. *)
Definition St : Type := t * ParallelServer.t * Shared.t.

(** [AssignmentAgent.assign_passengers(self, parallel_server_obj)].  The
    receiver is asked for its attribute [assignment_agent]; a value found
    there would be a list or a passenger pointer, neither of which has a
    [queue]. *)
Definition assign_passengers : M St unit := fun st =>
  let '(self, parallel_server_obj, sh) := st in
  if ParallelServer.has_space_in_a_server_queue parallel_server_obj then
    match getattr self "assignment_agent" with
    | Raise e => (Raise e, st)
    | Ok _ => (Raise AttributeError, st)
    end
  else (Ok tt, st).

End AssignmentAgent.

Module Subsection.

Record t : Type := mk {
  id : DataFrame.cell;
  parallel_server : ParallelServer.t;
  assignment_agent : AssignmentAgent.t }.

Definition set_parallel_server (v : ParallelServer.t) (s : t) : t :=
  mk (id s) v (assignment_agent s).
Definition set_assignment_agent (v : AssignmentAgent.t) (s : t) : t :=
  mk (id s) (parallel_server s) v.

Definition __init__ (subsection_id : DataFrame.cell) (subsection_arch : DataFrame.t)
    : result t :=
  ps ← ParallelServer.__init__ subsection_arch;
  Ok (mk subsection_id ps AssignmentAgent.__init__).

End Subsection.

Module Plane.

Record t : Type := mk {
  id : Z;
  origin : string;
  airport_code : string;
  arrival_time : string;
  airline : string;
  flight_num : string;
  terminal : string;
  num_dom_passengers : Z;
  num_intl_passengers : Z;
  plist : list loc }.

Definition set_plist (v : list loc) (p : t) : t :=
  mk (id p) (origin p) (airport_code p) (arrival_time p) (airline p)
     (flight_num p) (terminal p) (num_dom_passengers p) (num_intl_passengers p) v.

Section Creation.
Context `{NpRandom Rng}.

(** State of a construction: the generator and the passenger store. *)
Definition St : Type := Rng * list Passenger.t.

Definition on_rng {A} (m : M Rng A) : M St A := fun st =>
  let '(r, rng') := m st.1 in (r, (rng', st.2)).

(** A new object in the store. *)
Definition alloc (p : Passenger.t) : M St loc := fun st =>
  (Ok (length st.2), (st.1, st.2 ++ [p])).

(** [Plane.init_plist]: one [Passenger(...)] for each manifest row, counted
    as domestic or else as international. *)
Fixpoint init_plist_loop (arrival_time : string) (passenger_list : list Db.passenger)
    (plist : list loc) (dom intl : Z) : M St (list loc * Z * Z) :=
  match passenger_list with
  | [] => mret (plist, dom, intl)
  | row :: rest =>
      p ← on_rng (Passenger.__init__ (Db.p_id row) (Db.p_flight_num row) arrival_time
                    (Db.p_first_name row) (Db.p_last_name row) (Db.p_birthdate row)
                    (Db.p_nationality row));
      l ← alloc p;
      if String.eqb (Passenger.nationality p) "domestic"
      then init_plist_loop arrival_time rest (plist ++ [l]) (dom + 1) intl
      else init_plist_loop arrival_time rest (plist ++ [l]) dom (intl + 1)
  end.

(** [Plane.__init__] *)
Definition __init__ (plane_id : Z) (origin airport_code arrival_time airline
    flight_num terminal : string) (passenger_list : list Db.passenger) : M St t :=
  r ← init_plist_loop arrival_time passenger_list [] 0 0;
  mret (mk plane_id origin airport_code arrival_time airline flight_num terminal
           r.1.2 r.2 r.1.1).

End Creation.

End Plane.

Module PlaneDispatcher.

Record t : Type := mk { db : Db.t; plane_count : Z; passenger_count : Z }.

Definition __init__ (sqlite_database : Db.t) : t := mk sqlite_database 0 0.

Section Dispatch.
Context `{NpRandom Rng}.

Definition St : Type := t * Plane.St (Rng := Rng).

Definition build (a : Db.arrival) (plist : list Db.passenger) : M St Plane.t := fun st =>
  let '(r, c) :=
    Plane.__init__ (Db.a_id a) (Db.a_origin a) (Db.a_airport_code a)
      (Db.a_arrival_time a) (Db.a_airline a) (Db.a_flight_num a) (Db.a_terminal a)
      plist st.2 in
  (r, (st.1, c)).

Definition count (n : Z) : M St unit :=
  modify (fun st => (mk (db st.1) (plane_count st.1 + 1) (passenger_count st.1 + n), st.2)).

Fixpoint dispatch_loop (arrivals : list Db.arrival) (planes : list Plane.t)
    : M St (list Plane.t) :=
  match arrivals with
  | [] => mret planes
  | a :: rest =>
      st ← get;
      let plist := Db.manifest (db st.1) (Db.a_flight_num a) in
      plane ← build a plist;
      count (Z.of_nat (length plist));;
      dispatch_loop rest (planes ++ [plane])
  end.

(** [PlaneDispatcher.dispatch_plane(self, global_time)]: the arrivals whose
    [arrival_time] text equals [_get_ttime(global_time)]. *)
Definition dispatch_plane (global_time : Z) : M St (list Plane.t) :=
  st ← get;
  dispatch_loop (Db.international_arrivals (db st.1) (_get_ttime global_time)) [].

End Dispatch.

End PlaneDispatcher.

Module Customs.

(** The [Customs] object points to its [Subsection] objects, which live in a
    store of their own so that another name can point to the same ones; its
    [serviced_passengers] is the shared output object. *)
Record t : Type := mk { subsections : list nat }.

Record World : Type := mkWorld { sections : list Subsection.t; shared : Shared.t }.

Definition set_sections (v : list Subsection.t) (w : World) : World :=
  mkWorld v (shared w).

Fixpoint init_subsection_loop (customs_arch : DataFrame.t) (labels : list DataFrame.cell)
    : result (list Subsection.t) :=
  match labels with
  | [] => Ok []
  | subsection_id :: rest =>
      subsection_arch ← DataFrame.select "subsection" subsection_id customs_arch;
      section ← Subsection.__init__ subsection_id subsection_arch;
      l ← init_subsection_loop customs_arch rest;
      Ok (section :: l)
  end.

(** [Customs.init_subsections(self, customs_arch)] *)
Definition init_subsections (customs_arch : DataFrame.t) : result (list Subsection.t) :=
  labels ← DataFrame.column "subsection" customs_arch;
  init_subsection_loop customs_arch (DataFrame.unique [] labels).

(** [Customs.__init__(self, server_architecture)]: a fresh
    [ServicedPassengers()] and the subsections built from the frame. *)
Definition __init__ (server_architecture : DataFrame.t) : result (t * World) :=
  l ← init_subsections server_architecture;
  Ok (mk (seq 0 (length l)),
      mkWorld l (Shared.mk [] (Output.ServicedPassengers []))).

(** *** [handle_arrivals] *)

(** [for section in subsections: if plist[-1].nationality == section.id:
    section.assignment_agent.queue.append(plist.pop()); break]. *)
Fixpoint route_last (refs : list nat) (plane : Plane.t) (w : World)
    : result unit * (Plane.t * World) :=
  match refs with
  | [] => (Ok tt, (plane, w))
  | r :: rest =>
      match sections w !! r, last (Plane.plist plane) with
      | None, _ => (Raise SystemError, (plane, w))
      | _, None => (Raise IndexError, (plane, w))
      | Some section, Some l =>
          match Shared.heap (shared w) !! l with
          | None => (Raise SystemError, (plane, w))
          | Some p =>
              if DataFrame.cell_eqb (DataFrame.Str (Passenger.nationality p))
                   (Subsection.id section)
              then
                let agent := Subsection.assignment_agent section in
                let agent' :=
                  AssignmentAgent.mk (AssignmentAgent.queue agent ++ [l])
                    (AssignmentAgent.current_passenger agent) in
                (Ok tt,
                 (Plane.set_plist (removelast (Plane.plist plane)) plane,
                  set_sections
                    (<[r := Subsection.set_assignment_agent agent' section]> (sections w)) w))
              else route_last rest plane w
          end
      end
  end.

(** [while len(plane.plist) > 0: ...]; [None] when the loop is still running
    after [fuel] iterations.  The name [subsections] is free in the method
    body. *)
Fixpoint handle_loop (fuel : nat) (g : Globals.t) (plane : Plane.t) (w : World)
    : option (result unit * (Plane.t * World)) :=
  match fuel with
  | O => None
  | S fuel' =>
      if (0 <? length (Plane.plist plane))%nat then
        match Globals.lookup Globals.subsections g with
        | Raise e => Some (Raise e, (plane, w))
        | Ok refs =>
            match route_last refs plane w with
            | (Ok _, (plane', w')) => handle_loop fuel' g plane' w'
            | (Raise e, st) => Some (Raise e, st)
            end
        end
      else Some (Ok tt, (plane, w))
  end.

(** [Customs.handle_arrivals(self, plane)]; [plane] may be [None]. *)
Definition handle_arrivals (fuel : nat) (g : Globals.t) (plane : option Plane.t)
    (w : World) : option (result unit * (option Plane.t * World)) :=
  match plane with
  | None => Some (Ok tt, (None, w))
  | Some pl =>
      match handle_loop fuel g pl w with
      | None => None
      | Some (r, (pl', w')) => Some (r, (Some pl', w'))
      end
  end.

(** *** [update_servers] *)

(** [re.search('[0-9]-[0-9]', col)] *)
Fixpoint re_search (col : list ascii) : bool :=
  match col with
  | a :: r =>
      match r with
      | b :: c :: _ =>
          (Py.is_digit a && Ascii.eqb b "-" && Py.is_digit c) || re_search r
      | _ => false
      end
  | [] => false
  end.

Definition item (l : list string) (i : nat) : result string :=
  match l !! i with
  | Some x => Ok x
  | None => Raise IndexError
  end.

(** The scan of the columns for the window that holds [GLOBAL_TIME]; the
    chained comparison evaluates the upper bound only when the lower one
    holds. *)
Fixpoint find_time_idx (g : Globals.t) (cols : list string) (idx : nat)
    : result (option nat) :=
  match cols with
  | [] => Ok None
  | col :: rest =>
      if re_search (list_ascii_of_string col) then
        lo_s ← item (Py.split "-" col) 0;
        lo ← _get_sec (lo_s ++ ":00:00")%string;
        now ← Globals.lookup Globals.GLOBAL_TIME g;
        if lo <=? now then
          hi_s ← item (Py.split "-" col) 1;
          hi ← _get_sec (hi_s ++ ":00:00")%string;
          if now <=? hi then Ok (Some idx) else find_time_idx g rest (S idx)
        else find_time_idx g rest (S idx)
      else find_time_idx g rest (S idx)
  end.

(** [server_schedule[server_schedule['id'] == server.id]
      .iloc[:, [time_idx]].values[0][0] == 1] *)
Definition online_status (server_schedule : DataFrame.t) (time_idx : option nat)
    (server : ServiceAgent.t) : result bool :=
  matched_entry ← DataFrame.select "id" (ServiceAgent.id server) server_schedule;
  match time_idx, DataFrame.rows matched_entry with
  | None, _ => Raise IndexError
  | Some _, [] => Raise IndexError
  | Some i, row :: _ =>
      match row !! i with
      | Some c => Ok (DataFrame.cell_eqb c (DataFrame.Int 1))
      | None => Raise IndexError
      end
  end.

Fixpoint update_server_loop (server_schedule : DataFrame.t) (time_idx : option nat)
    (servers : list ServiceAgent.t) : result unit * list ServiceAgent.t :=
  match servers with
  | [] => (Ok tt, [])
  | server :: rest =>
      match online_status server_schedule time_idx server with
      | Raise e => (Raise e, servers)
      | Ok b =>
          let '(r, rest') := update_server_loop server_schedule time_idx rest in
          (r, ServiceAgent.set_is_serving b server :: rest')
      end
  end.

Fixpoint update_section_loop (server_schedule : DataFrame.t) (time_idx : option nat)
    (refs : list nat) (secs : list Subsection.t) : result unit * list Subsection.t :=
  match refs with
  | [] => (Ok tt, secs)
  | r :: rest =>
      match secs !! r with
      | None => (Raise SystemError, secs)
      | Some section =>
          let ps := Subsection.parallel_server section in
          let '(res, l) :=
            update_server_loop server_schedule time_idx (ParallelServer.server_list ps) in
          let secs' :=
            <[r := Subsection.set_parallel_server (ParallelServer.set_server_list l ps) section]>
              secs in
          match res with
          | Ok _ => update_section_loop server_schedule time_idx rest secs'
          | Raise e => (Raise e, secs')
          end
      end
  end.

(** [Customs.update_servers(self, server_schedule)]; [GLOBAL_TIME] is
    declared [global] and read from the module globals. *)
Definition update_servers (g : Globals.t) (self : t) (server_schedule : DataFrame.t)
    : M World unit := fun w =>
  match find_time_idx g (DataFrame.columns server_schedule) 0 with
  | Raise e => (Raise e, w)
  | Ok time_idx =>
      let '(r, secs) :=
        update_section_loop server_schedule time_idx (subsections self) (sections w) in
      (r, set_sections secs w)
  end.

End Customs.

(** ** [customs.py]: service times stored for a session *)

Module Session.

Definition service_dist_dom : string * string * string :=
  ("00:00:30", "00:01:00", "00:02:00").
Definition service_dist_intl : string * string * string :=
  ("00:01:00", "00:02:00", "00:04:00").

Section Init.
Context `{NpRandom Rng}.

Definition St : Type := Db.t * Rng.

Definition on_rng {A} (m : M Rng A) : M St A := fun st =>
  let '(r, rng') := m st.2 in (r, (st.1, rng')).

(** [UPDATE passengers SET service_time = CASE WHEN nationality = 'domestic'
    THEN time_dom ELSE time_for END WHERE id = pid] *)
Definition update_row (pid time_dom time_for : Z) (p : Db.passenger) : Db.passenger :=
  if Db.p_id p =? pid then
    Db.mk_passenger (Db.p_id p) (Db.p_flight_num p) (Db.p_first_name p) (Db.p_last_name p)
      (Db.p_birthdate p) (Db.p_nationality p)
      (Some (if String.eqb (Db.p_nationality p) "domestic" then time_dom else time_for))
  else p.

Definition set_passengers (f : list Db.passenger -> list Db.passenger) : M St unit :=
  modify (fun st =>
    (Db.mk (Db.arrivals st.1) (Db.airports st.1) (f (Db.passengers st.1)) true, st.2)).

(** One draw from each distribution for every id, whichever is used. *)
Fixpoint update_loop (ids : list Z) : M St unit :=
  match ids with
  | [] => mret tt
  | pid :: rest =>
      time_dom ← on_rng (sample_from_triangular service_dist_dom);
      time_for ← on_rng (sample_from_triangular service_dist_intl);
      set_passengers (map (update_row pid time_dom time_for));;
      update_loop rest
  end.

(** [init_service_times(database)]: "sets a passenger's service time once
    for an optimization routine". *)
Definition init_service_times : M St unit :=
  st ← get;
  if Db.has_service_time st.1 then mthrow OperationalError
  else
    set_passengers (fun l => l);;
    update_loop (map Db.p_id (Db.passengers st.1)).

End Init.

End Session.

(** ** The greedy search of [customs.py] *)

Module Optimizer.

(** Row 0 of the working schedule: the cell of column ['max'] and the cells
    of the hour columns ['0'], ['1'], ... in this order. *)
Record schedule : Type := mk { max_cell : Z; hour_cells : list Z }.

(** A simulation report, as far as [optimize] reads it: for each row its
    ['hour'] and [int(row['ave_wait'])]. *)
Definition report : Type := list (nat * Z).

Definition momentum : Z := 3.

Fixpoint adjust_loop (hours : list nat) (num_servers : Z) (cells : list Z)
    : result unit * list Z :=
  match hours with
  | [] => (Ok tt, cells)
  | hour :: rest =>
      if (hour <? length cells)%nat
      then adjust_loop rest num_servers (<[hour := num_servers]> cells)
      else (Raise KeyError, cells)
  end.

(** [adjust_schedule(schedule, starting_hour, num_servers)] *)
Definition adjust_schedule (starting_hour : nat) (num_servers : Z) : M schedule unit :=
  fun s =>
    let '(r, cells) :=
      adjust_loop (seq starting_hour (24 - starting_hour)) num_servers (hour_cells s) in
    (r, mk (max_cell s) cells).


(** Lines 249-267: [momentum] servers more when the wait is at or above the
    threshold, capped at [max_val]; [momentum] fewer otherwise, but not below
    1. *)
Definition momentum_step (threshold max_val ave_wait num_servers : Z) : Z :=
  if threshold <=? ave_wait then
    let n := num_servers + momentum in
    if max_val <? n then max_val else n
  else
    let n := num_servers - momentum in
    if n <? 1 then 1 else n.

Section Greedy.

(** [simulate] runs the whole simulation for a schedule; what else it
    depends on (database, generator) is the state [Sim].  Its body calls
    methods with signatures that [customs_obj.py] does not have in this
    revision, so it is a parameter of the search. *)
Context {Sim : Type}.
Variable simulate : schedule -> Sim -> report * Sim.
Variable threshold : Z.

Definition St : Type := schedule * Sim.










End Greedy.

End Optimizer.
(** ** Definitions used in the statements and proofs

    *** One field of a time string *)

(** The text [_get_ttime] builds for each of its three fields. *)
Definition pad (n : Z) : string :=
  if n / 10 =? 0 then ("0" ++ Py.str n)%string else Py.str n.

(** [pad n] is two digits that [int] reads back as [n]. *)
Definition pad_ok (n : Z) : bool :=
  match pad n with
  | String a (String b EmptyString) =>
      Py.is_digit a && Py.is_digit b
      && negb (Ascii.eqb a ":") && negb (Ascii.eqb b ":")
      && match Py.int (pad n) with Ok v => v =? n | Raise _ => false end
  | _ => false
  end.


(** *** The scan for the shortest queue *)

Module Selection.
Import ParallelServer.

(** Order of server ids, for ids that are ints. *)
Definition id_le (a b : DataFrame.cell) : Prop :=
  match a, b with
  | DataFrame.Int x, DataFrame.Int y => x <= y
  | _, _ => False
  end.

(** What the accumulator of the scan is with respect to the servers seen. *)
Definition last_shortest (seen : list ServiceAgent.t) (acc : option (nat * ServiceAgent.t)) : Prop :=
  match acc with
  | Some (i, s) =>
      seen !! i = Some s /\ qualifies s = true /\
      forall j s', seen !! j = Some s' -> qualifies s' = true ->
        (length (ServiceAgent.queue s) <= length (ServiceAgent.queue s'))%nat /\
        (length (ServiceAgent.queue s') = length (ServiceAgent.queue s) -> (j <= i)%nat)
  | None => forall s', s' ∈ seen -> qualifies s' = false
  end.

(** The tie rule of the claim: no qualifying server with the same queue
    length has a lower id than the one returned. *)
Definition lowest_id_on_tie (pool : t) : Prop :=
  forall i s, update_min_queue pool = Some (i, s) ->
  forall s', s' ∈ server_list pool -> qualifies s' = true ->
    length (ServiceAgent.queue s') = length (ServiceAgent.queue s) ->
    id_le (ServiceAgent.id s) (ServiceAgent.id s').

Definition booth (n : Z) : ServiceAgent.t :=
  ServiceAgent.mk true (DataFrame.Int n) [] false None (Some 5).

Definition two_empty_booths : t := mk [booth 1; booth 2] true 0 None.

End Selection.


(** *** Pools that differ in their [online] flags *)

Module Flags.
Import ParallelServer.

(** The servers of a pool with their [online] flags overwritten by [flags]
    (servers beyond the end of [flags] keep theirs). *)
Fixpoint set_flags (flags : list bool) (servers : list ServiceAgent.t) : list ServiceAgent.t :=
  match servers, flags with
  | s :: rest, b :: bs => ServiceAgent.set_online b s :: set_flags bs rest
  | _, _ => servers
  end.

Definition set_pool_flags (flags : list bool) (pool : t) : t :=
  set_server_list (set_flags flags (server_list pool)) pool.

(** The first half of the claim at one call of [service_passengers]: a
    server that is offline and idle before the call is idle after it. *)
Definition offline_stays_idle (g : Globals.t) (pool : t) (sh : Shared.t) : Prop :=
  forall i s s',
    server_list pool !! i = Some s ->
    server_list (service_passengers g (pool, sh)).2.1 !! i = Some s' ->
    ServiceAgent.online s = false -> ServiceAgent.is_serving s = false ->
    ServiceAgent.is_serving s' = false.

Definition traveller (pid d : Z) : Passenger.t :=
  Passenger.mk pid "BA117" "06:00:00" "A" "B" "1970-01-01" "foreign" 21600 (-1) (Some d)
    false false.

(** One booth, offline and idle, with passenger 0 waiting in its queue. *)
Definition offline_booth : ServiceAgent.t :=
  ServiceAgent.mk false (DataFrame.Int 1) [0%nat] false None (Some 5).

Definition pool : t := mk [offline_booth] true 0 None.

Definition shared : Shared.t :=
  Shared.mk [traveller 7 60] (Output.ServicedPassengers []).

(** A namespace in which a caller has bound the two free names of [serve]. *)
Definition bound_globals : Globals.t := Globals.mk (Some 21600) (Some 0%nat) None.

End Flags.


(** *** A booth in the middle of a run *)

Module Booth.

(** The passenger waiting in the booth's queue (location 0) and another
    passenger object (location 1). *)
Definition waiting : Passenger.t :=
  Passenger.mk 1 "BA117" "00:00:00" "Ada" "Byron" "1815-12-10" "domestic" 0 (-1) (Some 30)
    false false.

Definition bystander : Passenger.t :=
  Passenger.mk 2 "BA117" "00:00:00" "Alan" "Turing" "1912-06-23" "foreign" 0 (-1) (Some 45)
    false false.

Definition idle : ServiceAgent.t :=
  ServiceAgent.mk true (DataFrame.Int 1) [0%nat] false None (Some 5).

Definition serving : ServiceAgent.t :=
  ServiceAgent.mk true (DataFrame.Int 1) [] true (Some 0%nat) (Some 5).

Definition shared : Shared.t :=
  Shared.mk [waiting; bystander] (Output.ServicedPassengers []).

Definition stamped : Shared.t :=
  Shared.mk [waiting; Passenger.set_soujourn_time 45 bystander]
    (Output.ServicedPassengers []).

Definition marked : Shared.t :=
  Shared.mk
    [waiting; Passenger.set_processed true (Passenger.set_soujourn_time 45 bystander)]
    (Output.ServicedPassengers []).

(** A namespace in which a caller has bound [GLOBAL_TIME] to the tick and
    [passenger] to the object at location 1. *)
Definition at_tick (tick : Z) : Globals.t := Globals.mk (Some tick) (Some 1%nat) None.

End Booth.

(** *** A one-booth customs hall and its schedule *)

Module Hall.

Definition frame : DataFrame.t :=
  DataFrame.mk ["id"; "subsection"; "max"; "0-24"]
    [[DataFrame.Int 1; DataFrame.Str "domestic"; DataFrame.Int 1; DataFrame.Int 1]].

Definition booth : ServiceAgent.t := ServiceAgent.__init__ (DataFrame.Int 1).

Definition pool : ParallelServer.t := ParallelServer.mk [booth] true 0 None.

Definition section : Subsection.t :=
  Subsection.mk (DataFrame.Str "domestic") pool AssignmentAgent.__init__.

Definition customs : Customs.t := Customs.mk [0%nat].

Definition citizen : Passenger.t :=
  Passenger.mk 1 "BA117" "12:00:00" "Ada" "Byron" "1815-12-10" "domestic" 43200 (-1)
    (Some 30) false false.

Definition stateless : Passenger.t :=
  Passenger.mk 2 "BA117" "12:00:00" "Nemo" "Nobody" "1870-01-01" "stateless" 43200 (-1)
    None false false.

Definition world : Customs.World :=
  Customs.mkWorld [section] (Shared.mk [citizen; stateless] (Output.ServicedPassengers [])).

Definition plane (plist : list loc) : Plane.t :=
  Plane.mk 10 "London" "LHR" "12:00:00" "BA" "BA117" "4" 1 1 plist.

(** Namespaces in which a caller has bound [GLOBAL_TIME] to noon, and
    [subsections] to the hall's own section list. *)
Definition noon : Globals.t := Globals.mk (Some 43200) None None.
Definition own_sections : Globals.t := Globals.mk None None (Some [0%nat]).

(** The flag [f] of every server of every section. *)
Definition server_flags (f : ServiceAgent.t -> bool) (w : Customs.World) : list (list bool) :=
  map (fun sec => map f (ParallelServer.server_list (Subsection.parallel_server sec)))
    (Customs.sections w).

(** An assignment agent with two passengers waiting, in front of a pool whose
    only booth is online with an empty queue of capacity 5. *)
Definition agent : AssignmentAgent.t := AssignmentAgent.mk [0%nat; 1%nat] None.

Definition open_pool : ParallelServer.t :=
  ParallelServer.mk [ServiceAgent.mk true (DataFrame.Int 1) [] false None (Some 5)]
    true 0 None.

End Hall.

(** *** A search in which hour 0 cannot meet the threshold *)

Module Saturated.
Import Optimizer.

(** Arrivals in hours 0 and 1 only.  Hour 0 waits 20 minutes whatever the
    staffing; hour 1 waits 20 minutes with fewer than 3 servers and none
    with 3 or more. *)
Definition simulate (s : schedule) (x : unit) : report * unit :=
  ([(0%nat, 20);
    (1%nat, match hour_cells s !! 1%nat with
            | Some n => if 3 <=? n then 0 else 20
            | None => 20
            end)], x).

Definition threshold : Z := 10.

Definition start : schedule := mk 5 (repeat 1 24).

End Saturated.

(** *** Two simulation runs over one flight *)

Module Rerun.

(** A generator whose state counts the draws made so far. *)
#[local] Instance counter : NpRandom Z := fun lower mode upper n =>
  (lower + n mod (upper - lower), n + 1).

Definition db : Db.t :=
  Db.mk [Db.mk_arrival 10 "London" "LHR" "06:00:00" "BA" "BA117" "4" EmptyString]
        [Db.mk_airport "LHR" "United Kingdom"]
        [Db.mk_passenger 7 "BA117" "Ada" "Byron" "1815-12-10" "domestic" None]
        false.

(** [main]: the service times are stored first, with the generator in state
    0; the dispatcher then works on that database. *)
Definition session : result unit * Session.St (Rng := Z) :=
  Session.init_service_times (db, 0).

Definition stored : list (Z * option Z) :=
  map (fun p => (Db.p_id p, Db.p_service_time p)) (Db.passengers session.2.1).

Definition start : PlaneDispatcher.St (Rng := Z) :=
  (PlaneDispatcher.__init__ session.2.1, (session.2.2, [])).

(** The dispatch of tick 06:00:00 in a first run of the simulation, and the
    same dispatch in the next run of the same session. *)
Definition first_run := PlaneDispatcher.dispatch_plane 21600 start.
Definition second_run := PlaneDispatcher.dispatch_plane 21600 first_run.2.

Definition durations (st : PlaneDispatcher.St (Rng := Z)) : list (Z * option Z) :=
  map (fun p => (Passenger.id p, Passenger.service_time p)) st.2.2.

End Rerun.

(** *** Searches with a report that does not depend on the staffing *)

Module Steady.
Import Optimizer.

(** Arrivals in hours 0 and 1, each waiting [w] minutes whatever the
    schedule. *)
Definition simulate (w : Z) (s : schedule) (x : unit) : report * unit :=
  ([(0%nat, w); (1%nat, w)], x).

Definition start : schedule := mk 5 (repeat 2 24).


End Steady.

(** *** Rows of the [passengers] table *)

Module Rows.

(** The six columns a row has before [init_service_times]. *)
Definition person (p : Db.passenger) : Z * string * string * string * string * string :=
  (Db.p_id p, Db.p_flight_num p, Db.p_first_name p, Db.p_last_name p,
   Db.p_birthdate p, Db.p_nationality p).

Definition timed (p : Db.passenger) : bool :=
  match Db.p_service_time p with
  | Some _ => true
  | None => false
  end.

End Rows.

(** *** What a call may change *)

Module Frame.

(** A computation keeps [R] when the store it leaves is related by [R] to
    the store it was given, whether it returns or raises. *)
Definition keeps {S A} (R : S -> S -> Prop) (m : M S A) : Prop :=
  forall st, R st (m st).2.

(** Everything a [Passenger] is given at creation. *)
Definition facts (p : Passenger.t) :=
  (Passenger.id p, Passenger.flight_num p, Passenger.arrival_time p,
   Passenger.first_name p, Passenger.last_name p, Passenger.birthdate p,
   Passenger.nationality p, Passenger.enque_time p, Passenger.service_time p,
   Passenger.connect_flight p).

(** The same passenger later on: same facts, and still processed if it was. *)
Definition ages (p p' : Passenger.t) : Prop :=
  facts p = facts p' /\ (Passenger.processed p = true -> Passenger.processed p' = true).

(** What a [ServiceAgent] is configured with. *)
Definition config (s : ServiceAgent.t) : DataFrame.cell * bool * option Z :=
  (ServiceAgent.id s, ServiceAgent.online s, ServiceAgent.max_queue_size s).

(** The same server later on: same configuration, and a queue that has only
    lost passengers from its front. *)
Definition server_rel (s s' : ServiceAgent.t) : Prop :=
  config s = config s' /\ ServiceAgent.queue s' `suffix_of` ServiceAgent.queue s.

(** The same shared objects later on: the same passengers, aged, and an
    output that has only been appended to. *)
Definition shared_rel (sh sh' : Shared.t) : Prop :=
  Forall2 ages (Shared.heap sh) (Shared.heap sh')
  /\ Output.contents (Shared.output sh) `prefix_of` Output.contents (Shared.output sh').

Definition serve_rel (st st' : ServiceAgent.St) : Prop :=
  server_rel st.1 st'.1 /\ shared_rel st.2 st'.2.

End Frame.

(** *** Pools at rest *)

Module Rest.

Definition no_queue (s : ServiceAgent.t) : bool :=
  match ServiceAgent.queue s with
  | [] => true
  | _ :: _ => false
  end.

(** No server of the pool has a passenger waiting. *)
Definition all_queues_empty (pool : ParallelServer.t) : bool :=
  forallb no_queue (ParallelServer.server_list pool).

(** Three booths, none with a queue; the second is in the middle of a
    service. *)
Definition pool : ParallelServer.t :=
  ParallelServer.mk
    [ServiceAgent.__init__ (DataFrame.Int 1);
     ServiceAgent.mk true (DataFrame.Int 2) [] true (Some 0%nat) (Some 5);
     ServiceAgent.__init__ (DataFrame.Int 3)]
    true 0 None.

End Rest.

(** *** A hall without its serving flags *)

Module Blank.

Definition server (s : ServiceAgent.t) : ServiceAgent.t := ServiceAgent.set_is_serving false s.

Definition section (sec : Subsection.t) : Subsection.t :=
  let ps := Subsection.parallel_server sec in
  Subsection.set_parallel_server
    (ParallelServer.set_server_list (map server (ParallelServer.server_list ps)) ps) sec.

(** The world with the [is_serving] flag of every server cleared: all that
    is left is what [update_servers] does not write. *)
Definition world (w : Customs.World) : Customs.World :=
  Customs.mkWorld (map section (Customs.sections w)) (Customs.shared w).

End Blank.

(** *** Characters of a number *)

Module Chars.

Definition no_colon (s : string) : bool :=
  forallb (fun c => negb (Ascii.eqb c ":")) (list_ascii_of_string s).

Definition no_space (l : list ascii) : bool := forallb (fun c => negb (Py.is_space c)) l.

End Chars.

(** *** Passengers just created *)

Module Fresh.

(** A passenger as [Passenger.__init__] leaves it for an arrival at tick
    [tick]. *)
Definition at_tick (tick : Z) (p : Passenger.t) : Prop :=
  Passenger.enque_time p = tick
  /\ Passenger.soujourn_time p = -1
  /\ Passenger.processed p = false
  /\ Passenger.connect_flight p = false.

End Fresh.

(** *** Where [handle_arrivals] puts the passengers *)

Module Routing.

(** Every passenger waiting in front of an assignment agent, section by section. *)
Definition queued (w : Customs.World) : list loc :=
  concat (map (fun s => AssignmentAgent.queue (Subsection.assignment_agent s))
            (Customs.sections w)).

(** The passenger at [l] carries the label of section [s] as nationality. *)
Definition belongs (heap : list Passenger.t) (s : Subsection.t) (l : loc) : Prop :=
  exists p, heap !! l = Some p /\ DataFrame.Str (Passenger.nationality p) = Subsection.id s.

(** [s'] is [s] with passengers of its own label added at the back of the
    agent's queue, and nothing else changed. *)
Definition grown (heap : list Passenger.t) (s s' : Subsection.t) : Prop :=
  Subsection.id s' = Subsection.id s
  /\ Subsection.parallel_server s' = Subsection.parallel_server s
  /\ AssignmentAgent.current_passenger (Subsection.assignment_agent s')
     = AssignmentAgent.current_passenger (Subsection.assignment_agent s)
  /\ exists added,
       AssignmentAgent.queue (Subsection.assignment_agent s')
       = AssignmentAgent.queue (Subsection.assignment_agent s) ++ added
       /\ Forall (belongs heap s) added.

Definition routed (w w' : Customs.World) : Prop :=
  Customs.shared w' = Customs.shared w
  /\ Forall2 (grown (Shared.heap (Customs.shared w))) (Customs.sections w) (Customs.sections w').

(** The hall after its citizen has been routed. *)
Definition arrived : Customs.World :=
  Customs.set_sections
    [Subsection.set_assignment_agent (AssignmentAgent.mk [0%nat] None) Hall.section]
    Hall.world.

End Routing.

(** *** What [Customs.__init__] builds *)

Module Layout.

(** [s] is the subsection built from the rows of [arch] under its label: one
    fresh server for each of these rows, in row order, under the row's id. *)
Definition built (arch : DataFrame.t) (s : Subsection.t) : Prop :=
  exists sub ids,
    DataFrame.select "subsection" (Subsection.id s) arch = Ok sub
    /\ DataFrame.column "id" sub = Ok ids
    /\ length ids = length (DataFrame.rows sub)
    /\ ids <> []
    /\ s = Subsection.mk (Subsection.id s)
             (ParallelServer.mk (map ServiceAgent.__init__ ids) true 0 None)
             AssignmentAgent.__init__.

End Layout.

(** * Theorems *)

Import ParallelServer.

(** Unfolds one call of [serve] on a booth given field by field and splits
    on every test the body makes. *)
Ltac serve_cases :=
  cbv [ServiceAgent.serve ServiceAgent.self ServiceAgent.update ServiceAgent.queue_pop0
       ServiceAgent.getattr ServiceAgent.setattr ServiceAgent.output_append
       ServiceAgent.add_int Globals.lookup modify lift mbind mret mthrow
       M_bind M_ret M_throw fst snd
       ServiceAgent.set_online ServiceAgent.set_queue ServiceAgent.set_is_serving
       ServiceAgent.set_current_passenger ServiceAgent.online ServiceAgent.id
       ServiceAgent.queue ServiceAgent.is_serving ServiceAgent.current_passenger
       ServiceAgent.max_queue_size Globals.GLOBAL_TIME Globals.passenger
       Shared.set_heap Shared.set_output Shared.heap Shared.output];
  repeat (case_match; simplify_eq; simpl; auto; try done; try congruence).

(** ** C10 *)

Example get_ttime_3725 : _get_ttime 3725 = "01:02:05".
Proof. reflexivity. Qed.

Example get_sec_010205 : _get_sec "01:02:05" = Ok 3725.
Proof. reflexivity. Qed.

Example get_sec_two_fields : _get_sec "02:05" = Raise ValueError.
Proof. reflexivity. Qed.

Example get_sec_not_a_number : _get_sec "01:0x:05" = Raise ValueError.
Proof. reflexivity. Qed.

Lemma get_ttime_pad s :
  _get_ttime s =
  (pad (s / 3600) ++ ":" ++ pad (s mod 3600 / 60) ++ ":" ++ pad ((s mod 3600) mod 60))%string.
Proof. reflexivity. Qed.

Lemma pad_ok_all : forallb pad_ok (map Z.of_nat (seq 0 100)) = true.
Proof. vm_compute. reflexivity. Qed.

Lemma pad_ok_lt n : 0 <= n < 100 -> pad_ok n = true.
Proof.
  intros Hn.
  pose proof pad_ok_all as H.
  rewrite forallb_forall in H. apply H.
  apply in_map_iff. exists (Z.to_nat n). split; [lia|].
  apply in_seq. lia.
Qed.

Lemma pad_shape n :
  0 <= n < 100 ->
  exists a b, pad n = String a (String b EmptyString)
    /\ Py.is_digit a = true /\ Py.is_digit b = true
    /\ Ascii.eqb a ":" = false /\ Ascii.eqb b ":" = false
    /\ Py.int (String a (String b EmptyString)) = Ok n.
Proof.
  intros Hn. pose proof (pad_ok_lt n Hn) as H. unfold pad_ok in H.
  destruct (pad n) as [|a [|b [|]]] eqn:E; try discriminate.
  exists a, b.
  rewrite !andb_true_iff, !negb_true_iff in H.
  destruct H as ((((Da & Db) & Ca) & Cb) & Hi).
  destruct (Py.int (String a (String b EmptyString))) as [v|] eqn:Ei; try discriminate.
  apply Z.eqb_eq in Hi. subst v. auto 10.
Qed.

(** C10.  For every number of seconds [s] of one day, [_get_ttime s] has the
    shape "HH:MM:SS" and [_get_sec] reads it back as [s]. *)
Theorem C10_get_sec_get_ttime_roundtrip (s : Z) :
  0 <= s < 86400 ->
  is_HHMMSS (_get_ttime s) = true /\ _get_sec (_get_ttime s) = Ok s.
Proof.
  intros Hs. rewrite get_ttime_pad.
  assert (Hh : 0 <= s / 3600 < 100).
  { split; [apply Z.div_pos; lia|]. apply Z.div_lt_upper_bound; lia. }
  assert (Hr : 0 <= s mod 3600 < 3600) by (apply Z.mod_pos_bound; lia).
  assert (Hm : 0 <= s mod 3600 / 60 < 100).
  { split; [apply Z.div_pos; lia|]. apply Z.div_lt_upper_bound; lia. }
  assert (Hc : 0 <= (s mod 3600) mod 60 < 100).
  { pose proof (Z.mod_pos_bound (s mod 3600) 60). lia. }
  destruct (pad_shape _ Hh) as (a & b & -> & Da & Db & Ca & Cb & Ih).
  destruct (pad_shape _ Hm) as (c & d & -> & Dc & Dd & Cc & Cd & Im).
  destruct (pad_shape _ Hc) as (e & f & -> & De & Df & Ce & Cf & Is).
  split.
  - unfold is_HHMMSS. simpl. rewrite Da, Db, Dc, Dd, De, Df. reflexivity.
  - unfold _get_sec. simpl Py.split. rewrite Ca, Cb. simpl. rewrite Cc, Cd. simpl.
    rewrite Ce, Cf. rewrite Ih, Im, Is. simpl.
    f_equal.
    pose proof (Z.div_mod s 3600). pose proof (Z.div_mod (s mod 3600) 60). lia.
Qed.

(** C10 at 01:02:05. *)
Lemma C10_roundtrip_witness :
  0 <= 3725 < 86400 /\
  is_HHMMSS (_get_ttime 3725) = true /\ _get_sec (_get_ttime 3725) = Ok 3725.
Proof. split; [lia | apply (C10_get_sec_get_ttime_roundtrip 3725); lia]. Defined.

(** ** C4 *)

Lemma has_space_loop_existsb l : has_space_loop l = existsb qualifies l.
Proof. induction l as [|s l IH]; simpl; [done|]. rewrite IH. by destruct (qualifies s). Qed.

Lemma min_queue_loop_last_shortest servers :
  forall seen acc,
    Selection.last_shortest seen acc ->
    Selection.last_shortest (seen ++ servers) (min_queue_loop servers (length seen) acc).
Proof.
  induction servers as [|server rest IH]; intros seen acc Hacc; simpl.
  - by rewrite app_nil_r.
  - replace (seen ++ server :: rest) with ((seen ++ [server]) ++ rest)
      by (by rewrite <- app_assoc).
    replace (S (length seen)) with (length (seen ++ [server]))
      by (rewrite length_app; simpl; lia).
    apply IH. clear IH.
    assert (Hnew : (seen ++ [server]) !! length seen = Some server).
    { rewrite lookup_app_r by lia. by rewrite Nat.sub_diag. }
    assert (Hold : forall j s', (seen ++ [server]) !! j = Some s' ->
               seen !! j = Some s' \/ (j = length seen /\ s' = server)).
    { intros j s' Hj. destruct (decide (j < length seen)%nat) as [Hlt|Hge].
      - left. by rewrite lookup_app_l in Hj.
      - right. rewrite lookup_app_r in Hj by lia.
        destruct (j - length seen)%nat as [|k] eqn:Ek; simpl in Hj; [|done].
        split; [lia | congruence]. }
    destruct (qualifies server) eqn:Hq.
    + destruct acc as [[i m]|]; simpl in *.
      * destruct Hacc as (Hi & Hm & Hbest).
        assert (Hilt : (i < length seen)%nat) by (eapply lookup_lt_Some; eauto).
        destruct (length (ServiceAgent.queue server) <=? length (ServiceAgent.queue m))%nat eqn:Hle.
        -- apply Nat.leb_le in Hle. split; [done|]. split; [done|].
           intros j s' Hj Hs'. destruct (Hold j s' Hj) as [Hin|[-> ->]].
           ++ destruct (Hbest j s' Hin Hs') as [H1 H2].
              assert (j < length seen)%nat by (eapply lookup_lt_Some; eauto). lia.
           ++ lia.
        -- apply Nat.leb_gt in Hle. split; [by rewrite lookup_app_l|]. split; [done|].
           intros j s' Hj Hs'. destruct (Hold j s' Hj) as [Hin|[-> ->]].
           ++ by apply Hbest.
           ++ lia.
      * split; [done|]. split; [done|].
        intros j s' Hj Hs'. destruct (Hold j s' Hj) as [Hin|[-> ->]].
        -- apply list_elem_of_lookup_2 in Hin. apply Hacc in Hin. congruence.
        -- lia.
    + destruct acc as [[i m]|]; simpl in *.
      * destruct Hacc as (Hi & Hm & Hbest).
        assert (Hilt : (i < length seen)%nat) by (eapply lookup_lt_Some; eauto).
        split; [by rewrite lookup_app_l|]. split; [done|].
        intros j s' Hj Hs'. destruct (Hold j s' Hj) as [Hin|[-> ->]].
        -- by apply Hbest.
        -- congruence.
      * intros s' Hin. apply elem_of_app in Hin as [Hin|Hin]; [by apply Hacc|].
        apply list_elem_of_singleton in Hin. by subst.
Qed.

(** C4 (as amended).  When [update_min_queue] returns a server, that server
    is in the pool, is online with a queue shorter than its bound, no
    qualifying server has a shorter queue, every qualifying server with a
    queue of the same length stands at or before it in [server_list] (a tie
    goes to the last one), and [update_has_space_in_a_server_queue] reports
    space.  When it returns [None], no server qualifies and no space is
    reported. *)
Theorem C4_update_min_queue_last_shortest (pool : ParallelServer.t) :
  match update_min_queue pool with
  | Some (i, s) =>
      update_has_space_in_a_server_queue pool = true /\
      server_list pool !! i = Some s /\ qualifies s = true /\
      forall j s', server_list pool !! j = Some s' -> qualifies s' = true ->
        (length (ServiceAgent.queue s) <= length (ServiceAgent.queue s'))%nat /\
        (length (ServiceAgent.queue s') = length (ServiceAgent.queue s) -> (j <= i)%nat)
  | None =>
      update_has_space_in_a_server_queue pool = false /\
      forall s', s' ∈ server_list pool -> qualifies s' = false
  end.
Proof.
  pose proof (min_queue_loop_last_shortest (server_list pool) [] None) as H.
  simpl in H. specialize (H ltac:(intros s' Hs'; by apply elem_of_nil in Hs')).
  unfold update_min_queue, update_has_space_in_a_server_queue.
  rewrite has_space_loop_existsb.
  destruct (min_queue_loop (server_list pool) 0 None) as [[i s]|]; simpl in H.
  - destruct H as (Hi & Hq & Hbest). split; [|done].
    apply existsb_exists. exists s. split; [|done].
    apply list_elem_of_In. by eapply list_elem_of_lookup_2.
  - split; [|done].
    apply not_true_is_false. intros Hex. apply existsb_exists in Hex as (s & Hin & Hq).
    apply list_elem_of_In in Hin. apply H in Hin. congruence.
Qed.

(** C4 as stated fails: of two online booths with empty queues and ids 1 and
    2, the scan returns the booth with id 2. *)
Lemma C4_tie_goes_to_last_server : ~ Selection.lowest_id_on_tie Selection.two_empty_booths.
Proof.
  intros H.
  specialize (H 1%nat (Selection.booth 2) eq_refl (Selection.booth 1)).
  simpl in H. apply (Zle_not_lt 2 1); [|lia].
  apply H; [|reflexivity|reflexivity].
  apply list_elem_of_here.
Qed.

(** ** C2 *)

Lemma serve_set_online g b s sh :
  ServiceAgent.serve g (ServiceAgent.set_online b s, sh) =
  let '(r, (s', sh')) := ServiceAgent.serve g (s, sh) in
  (r, (ServiceAgent.set_online b s', sh')).
Proof.
  destruct s as [o i q srv cur mx], g as [gt gp gs].
  destruct sh as [h out]. serve_cases.
Qed.

Lemma service_loop_set_flags g servers : forall flags sh,
  ParallelServer.service_loop g (Flags.set_flags flags servers) sh =
  let '(r, (servers', sh')) := ParallelServer.service_loop g servers sh in
  (r, (Flags.set_flags flags servers', sh')).
Proof.
  induction servers as [|s rest IH]; intros flags sh; simpl.
  - by destruct flags.
  - destruct flags as [|b bs].
    + simpl. repeat (case_match; simpl in *; simplify_eq; try done).
    + simpl. replace (ServiceAgent.queue (ServiceAgent.set_online b s))
        with (ServiceAgent.queue s) by (by destruct s).
      destruct (0 <? length (ServiceAgent.queue s))%nat.
      * rewrite serve_set_online.
        destruct (ServiceAgent.serve g (s, sh)) as [[[]|e] [s' sh']]; simpl.
        -- rewrite IH. by destruct (ParallelServer.service_loop g rest sh') as [r [rest' sh'']].
        -- done.
      * rewrite IH. by destruct (ParallelServer.service_loop g rest sh) as [r [rest' sh'']].
Qed.

(** C2 (as amended).  [service_passengers], and [serve] under it, neither
    read nor write the [online] flags: with the flags of the pool set in any
    way the call has the same result and leaves the same servers, passengers
    and output, the flags apart.  The flag only matters to the admission
    scans, where an offline server never qualifies. *)
Theorem C2_service_ignores_online (g : Globals.t) (flags : list bool)
    (pool : ParallelServer.t) (sh : Shared.t) :
  ParallelServer.service_passengers g (Flags.set_pool_flags flags pool, sh) =
    (let '(r, (pool', sh')) := ParallelServer.service_passengers g (pool, sh) in
     (r, (Flags.set_pool_flags flags pool', sh')))
  /\ (forall s, ParallelServer.qualifies (ServiceAgent.set_online false s) = false).
Proof.
  split.
  - unfold ParallelServer.service_passengers, Flags.set_pool_flags. simpl.
    rewrite service_loop_set_flags.
    by destruct (ParallelServer.service_loop g (ParallelServer.server_list pool) sh)
      as [r [l sh']].
  - intros s. unfold ParallelServer.qualifies. simpl. apply andb_false_r.
Qed.

(** C2 as stated fails: an offline, idle booth with one passenger in its
    queue is in service after [service_passengers], in the module's own
    namespace and with the free names bound. *)
Lemma C2_offline_booth_begins_service :
  ~ Flags.offline_stays_idle Globals.module_globals Flags.pool Flags.shared
  /\ ~ Flags.offline_stays_idle Flags.bound_globals Flags.pool Flags.shared.
Proof.
  split; intros H.
  - specialize (H 0%nat Flags.offline_booth _ eq_refl eq_refl eq_refl eq_refl). discriminate H.
  - specialize (H 0%nat Flags.offline_booth _ eq_refl eq_refl eq_refl eq_refl). discriminate H.
Qed.

(** ** C1: [ServiceAgent.serve] *)

(** In the namespace of the module as written, [serve] never returns
    normally: it raises on the empty queue, on [GLOBAL_TIME] or on
    [passenger]. *)
Lemma serve_module_globals_raises (st : ServiceAgent.St) :
  exists e, (ServiceAgent.serve Globals.module_globals st).1 = Raise e.
Proof.
  destruct st as [[o i q srv cur mx] sh].
  cbv [ServiceAgent.serve ServiceAgent.self ServiceAgent.update ServiceAgent.queue_pop0
       Globals.lookup Globals.module_globals Globals.GLOBAL_TIME Globals.passenger
       modify lift mbind mret M_bind M_ret fst snd ServiceAgent.is_serving
       ServiceAgent.queue].
  destruct srv; [eauto|]. destruct q; eauto.
Qed.

(** Whatever the namespace, [serve] leaves a [ServicedPassengers] output
    object as it is: nothing is ever appended to it. *)
Lemma serve_keeps_ServicedPassengers (g : Globals.t) (st : ServiceAgent.St) l :
  Shared.output st.2 = Output.ServicedPassengers l ->
  Shared.output (ServiceAgent.serve g st).2.2 = Output.ServicedPassengers l.
Proof.
  destruct st as [[o i q srv cur mx] [h out]], g as [gt gp gs]. simpl. intros ->.
  serve_cases.
Qed.

(** [serve] only ever takes from the front of the booth's queue. *)
Lemma serve_queue (g : Globals.t) (st : ServiceAgent.St) :
  let q := ServiceAgent.queue st.1 in
  let q' := ServiceAgent.queue (ServiceAgent.serve g st).2.1 in
  q' = q \/ q' = tail q.
Proof.
  destruct st as [[o i q srv cur mx] [h out]], g as [gt gp gs].
  serve_cases.
Qed.

(** What the method is after: with [passenger] naming the very passenger at
    the head of the queue and a python list for output, service starts at
    tick 0, nothing happens at tick 29, and at tick 30 the passenger is marked
    processed and appended, and the booth is idle again. *)
Example serve_when_names_line_up :
  let g tick := Globals.mk (Some tick) (Some 0%nat) None in
  let sh := Shared.set_output (Output.PyList []) Booth.shared in
  let st0 := (ServiceAgent.serve (g 0) (Booth.idle, sh)).2 in
  let st29 := (ServiceAgent.serve (g 29) st0).2 in
  let st30 := (ServiceAgent.serve (g 30) st29).2 in
  ServiceAgent.is_serving <$> [st0.1; st29.1; st30.1] = [true; true; false]
  /\ Output.contents <$> (Shared.output <$> [st0.2; st29.2; st30.2]) = [[]; []; [0%nat]]
  /\ Passenger.processed <$> Shared.heap st30.2 = [true; false].
Proof. repeat split; reflexivity. Qed.

(** Even then the last passenger of a queue is never completed: once the
    queue is empty [service_passengers] does not call [serve] any more. *)
Example last_passenger_stays_in_service :
  let g tick := Globals.mk (Some tick) (Some 0%nat) None in
  let sh := Shared.set_output (Output.PyList []) Booth.shared in
  let pool := ParallelServer.mk [Booth.idle] true 0 None in
  let st0 := (service_passengers (g 0) (pool, sh)).2 in
  let st30 := (service_passengers (g 30) st0).2 in
  ServiceAgent.is_serving <$> server_list st30.1 = [true]
  /\ Output.contents (Shared.output st30.2) = []
  /\ Passenger.processed <$> Shared.heap st30.2 = [false; false].
Proof. repeat split; reflexivity. Qed.

(** C1 (code defect).  [serve] at an idle booth whose queue holds the
    passenger at location 0 (service time 30), tick 0.  In the module's own
    namespace the call takes the passenger out of the queue and raises
    [NameError].  With [GLOBAL_TIME] and [passenger] bound by a caller, the
    completion tick 45 is stamped on the object that [passenger] names and not
    on the passenger in service; at tick 30 nothing happens; at tick 45 that
    other object is marked processed, the append to the [ServicedPassengers]
    ledger raises [AttributeError], and the booth stays in service. *)
Theorem C1_serve_misses_its_passenger :
  ServiceAgent.serve Globals.module_globals (Booth.idle, Booth.shared)
    = (Raise NameError, (Booth.serving, Booth.shared))
  /\ ServiceAgent.serve (Booth.at_tick 0) (Booth.idle, Booth.shared)
    = (Ok tt, (Booth.serving, Booth.stamped))
  /\ ServiceAgent.serve (Booth.at_tick 30) (Booth.serving, Booth.stamped)
    = (Ok tt, (Booth.serving, Booth.stamped))
  /\ ServiceAgent.serve (Booth.at_tick 45) (Booth.serving, Booth.stamped)
    = (Raise AttributeError, (Booth.serving, Booth.marked))
  /\ Passenger.processed <$> Shared.heap Booth.marked = [false; true].
Proof. repeat split; reflexivity. Qed.

(** ** C3: [Customs.update_servers] *)

Lemma update_server_loop_online sched idx servers :
  ServiceAgent.online <$> (Customs.update_server_loop sched idx servers).2
  = ServiceAgent.online <$> servers.
Proof.
  induction servers as [|s rest IH]; simpl; [done|].
  destruct (Customs.online_status sched idx s); [|done].
  destruct (Customs.update_server_loop sched idx rest) as [r rest'].
  simpl in *. f_equal. exact IH.
Qed.

Lemma update_section_loop_online sched idx refs : forall secs,
  Hall.server_flags ServiceAgent.online
    (Customs.mkWorld (Customs.update_section_loop sched idx refs secs).2 (Shared.mk [] (Output.PyList [])))
  = Hall.server_flags ServiceAgent.online
      (Customs.mkWorld secs (Shared.mk [] (Output.PyList []))).
Proof.
  unfold Hall.server_flags. simpl.
  induction refs as [|r rest IH]; intros secs; simpl; [done|].
  destruct (secs !! r) as [sec|] eqn:Hr; [|done].
  pose proof (update_server_loop_online sched idx
                (ParallelServer.server_list (Subsection.parallel_server sec))) as Hl.
  destruct (Customs.update_server_loop sched idx
              (ParallelServer.server_list (Subsection.parallel_server sec))) as [res l].
  simpl in Hl.
  set (secs' := <[r:=_]> secs).
  assert (Hsame :
    map (fun sec => map ServiceAgent.online
                      (ParallelServer.server_list (Subsection.parallel_server sec))) secs'
    = map (fun sec => map ServiceAgent.online
                      (ParallelServer.server_list (Subsection.parallel_server sec))) secs).
  { subst secs'.
    change (map ?f ?l) with (f <$> l).
    rewrite list_fmap_insert. simpl.
    apply list_insert_id. rewrite list_lookup_fmap, Hr. simpl. f_equal. symmetry. exact Hl. }
  destruct res; simpl.
  - rewrite IH. exact Hsame.
  - exact Hsame.
Qed.

(** Whatever the schedule and the tick, [update_servers] leaves the [online]
    flag of every server as it was. *)
Lemma update_servers_keeps_online g self sched w :
  Hall.server_flags ServiceAgent.online (Customs.update_servers g self sched w).2
  = Hall.server_flags ServiceAgent.online w.
Proof.
  unfold Customs.update_servers.
  destruct (Customs.find_time_idx g (DataFrame.columns sched) 0) as [idx|e]; [|done].
  pose proof (update_section_loop_online sched idx (Customs.subsections self)
                (Customs.sections w)) as H.
  destruct (Customs.update_section_loop sched idx (Customs.subsections self)
              (Customs.sections w)) as [r secs].
  exact H.
Qed.

(** C3 (code defect).  A hall built by [Customs.__init__] from a frame with
    one booth that the schedule puts online in the window "0-24".  At noon
    (with [GLOBAL_TIME] bound by a caller) [update_servers] returns normally,
    the booth's [online] flag is still [False] and its [is_serving] flag, the
    serving status, has become [True]; in the module's own namespace the call
    raises [NameError]. *)
Theorem C3_update_servers_sets_is_serving :
  match Customs.__init__ Hall.frame with
  | Ok (customs, w) =>
      let out := Customs.update_servers Hall.noon customs Hall.frame w in
      out.1 = Ok tt
      /\ Hall.server_flags ServiceAgent.online w = [[false]]
      /\ Hall.server_flags ServiceAgent.is_serving w = [[false]]
      /\ Hall.server_flags ServiceAgent.online out.2 = [[false]]
      /\ Hall.server_flags ServiceAgent.is_serving out.2 = [[true]]
      /\ Customs.update_servers Globals.module_globals customs Hall.frame w
         = (Raise NameError, w)
  | Raise _ => False
  end.
Proof. vm_compute. repeat split; reflexivity. Qed.

(** ** C5: [AssignmentAgent.assign_passengers] *)

(** No call moves a passenger: the agent's queue, the pool and the shared
    objects are after the call what they were before. *)
Lemma assign_passengers_moves_nothing (st : AssignmentAgent.St) :
  (AssignmentAgent.assign_passengers st).2 = st.
Proof.
  destruct st as [[self pool] sh]. unfold AssignmentAgent.assign_passengers.
  destruct (ParallelServer.has_space_in_a_server_queue pool); [|done].
  by destruct (AssignmentAgent.getattr self "assignment_agent").
Qed.

(** C5 (code defect).  Two passengers wait at the assignment agent and the
    pool's only booth is online with an empty queue of capacity 5, so that
    the selection rule picks it; the call raises [AttributeError] and both
    passengers are still in the agent's queue, none in the booth's. *)
Theorem C5_assign_passengers_raises :
  ParallelServer.update_has_space_in_a_server_queue Hall.open_pool = true
  /\ fst <$> ParallelServer.update_min_queue Hall.open_pool = Some 0%nat
  /\ AssignmentAgent.assign_passengers (Hall.agent, Hall.open_pool, Booth.shared)
     = (Raise AttributeError, (Hall.agent, Hall.open_pool, Booth.shared)).
Proof. repeat split; reflexivity. Qed.

(** ** C6: [Customs.handle_arrivals] *)

(** In the module's own namespace every plane with a passenger on board
    raises [NameError] at once. *)
Lemma handle_loop_NameError fuel plane w :
  Plane.plist plane <> [] ->
  Customs.handle_loop (S fuel) Globals.module_globals plane w
  = Some (Raise NameError, (plane, w)).
Proof. intros Hne. simpl. by destruct (Plane.plist plane). Qed.

Lemma handle_loop_unmatched fuel :
  Customs.handle_loop fuel Hall.own_sections (Hall.plane [1%nat]) Hall.world = None.
Proof. induction fuel as [|fuel IH]; [done|]. simpl. exact IH. Qed.

(** C6 (code defect).  In the module's own namespace a plane with one
    domestic passenger, in a hall that has a domestic subsection, raises
    [NameError] and routes nobody.  With [subsections] bound by a caller to
    the hall's own sections the same plane is routed, and a plane whose
    passenger matches no subsection keeps the loop running: no number of
    iterations ends it. *)
Theorem C6_handle_arrivals_fails_or_spins (fuel : nat) :
  Customs.handle_arrivals (S fuel) Globals.module_globals (Some (Hall.plane [0%nat])) Hall.world
    = Some (Raise NameError, (Some (Hall.plane [0%nat]), Hall.world))
  /\ fst <$> Customs.handle_arrivals (S (S fuel)) Hall.own_sections
               (Some (Hall.plane [0%nat])) Hall.world = Some (Ok tt)
  /\ Customs.handle_arrivals fuel Hall.own_sections (Some (Hall.plane [1%nat])) Hall.world
    = None.
Proof.
  split; [reflexivity|]. split; [reflexivity|].
  unfold Customs.handle_arrivals. by rewrite handle_loop_unmatched.
Qed.

(** ** C7: the capacity bound *)

Lemma has_space_loop_unbounded servers :
  Forall (fun s => ServiceAgent.max_queue_size s = None) servers ->
  ParallelServer.has_space_loop servers = false.
Proof.
  induction 1 as [|s rest Hs _ IH]; simpl; [done|].
  unfold ParallelServer.qualifies. rewrite Hs. simpl. exact IH.
Qed.

Lemma init_server_loop_unbounded arch rows : forall rtn l,
  Forall (fun s => ServiceAgent.max_queue_size s = None) rtn ->
  ParallelServer.init_server_loop arch rows rtn = Ok l ->
  Forall (fun s => ServiceAgent.max_queue_size s = None) l.
Proof.
  induction rows as [|row rest IH]; intros rtn l Hrtn; simpl.
  - by intros [= <-].
  - destruct (ParallelServer.row_id arch row) as [i|e]; simpl; [|done].
    apply IH. apply Forall_app. split; [done|]. by constructor.
Qed.

Lemma set_flags_unbounded flags : forall servers,
  Forall (fun s => ServiceAgent.max_queue_size s = None) servers ->
  Forall (fun s => ServiceAgent.max_queue_size s = None) (Flags.set_flags flags servers).
Proof.
  induction flags as [|b bs IH]; intros servers H.
  - by destruct servers.
  - destruct H as [|s rest Hs Hrest]; simpl; [done|]. constructor; [done|]. by apply IH.
Qed.

Example hall_pool_built : ParallelServer.__init__ Hall.frame = Ok Hall.pool.
Proof. reflexivity. Qed.

(** C7 (code defect).  [ServiceAgent.__init__] leaves [max_queue_size] at
    [None] and nothing configures it: in every pool that
    [ParallelServer.__init__] builds, each queue is empty, the stored flag
    [has_space_in_a_server_queue] says [True], and yet with the servers put
    online in any way the admission scan finds no space. *)
Theorem C7_capacity_bound_is_None (arch : DataFrame.t) (flags : list bool) :
  (forall server_id,
     ServiceAgent.max_queue_size (ServiceAgent.__init__ server_id) = None)
  /\ match ParallelServer.__init__ arch with
     | Ok pool =>
         ParallelServer.has_space_in_a_server_queue pool = true
         /\ Forall (fun s => ServiceAgent.max_queue_size s = None
                             /\ ServiceAgent.queue s = [])
              (ParallelServer.server_list pool)
         /\ ParallelServer.update_has_space_in_a_server_queue
              (Flags.set_pool_flags flags pool) = false
     | Raise _ => True
     end.
Proof.
  split; [done|].
  unfold ParallelServer.__init__, ParallelServer.init_server_list.
  destruct (DataFrame.column "subsection" arch) as [labels|e]; simpl; [|done].
  destruct (DataFrame.unique [] labels) as [|server_type others]; simpl; [done|].
  destruct (ParallelServer.init_server_loop arch (DataFrame.rows arch) []) as [l|e] eqn:E;
    simpl; [|done].
  split; [done|].
  assert (Hq : forall rows rtn l',
             Forall (fun s => ServiceAgent.queue s = []) rtn ->
             ParallelServer.init_server_loop arch rows rtn = Ok l' ->
             Forall (fun s => ServiceAgent.queue s = []) l').
  { induction rows as [|row rest IH]; intros rtn l' Hrtn; simpl.
    - by intros [= <-].
    - destruct (ParallelServer.row_id arch row) as [i|e]; simpl; [|done].
      apply IH. apply Forall_app. split; [done|]. by constructor. }
  pose proof (init_server_loop_unbounded arch _ _ _ ltac:(constructor) E) as Hm.
  pose proof (Hq _ _ _ ltac:(constructor) E) as Hq'.
  split.
  - apply Forall_and. by split.
  - unfold ParallelServer.update_has_space_in_a_server_queue. simpl.
    apply has_space_loop_unbounded. by apply set_flags_unbounded.
Qed.

(** ** C8: the greedy search *)

(** The momentum step stays within the bounds. *)
Lemma momentum_step_bounds threshold max_val ave_wait num_servers :
  1 <= max_val -> 1 <= num_servers <= max_val + Optimizer.momentum ->
  1 <= Optimizer.momentum_step threshold max_val ave_wait num_servers <= max_val.
Proof.
  intros Hmax Hn. unfold Optimizer.momentum_step, Optimizer.momentum in *.
  repeat case_match; lia.
Qed.


(** ** C9: service times across runs *)

Lemma sample_dom `{NpRandom Rng} (rng : Rng) :
  sample_from_triangular service_dist_dom rng =
  (Ok (int_triangular 30 45 120 rng).1, (int_triangular 30 45 120 rng).2).
Proof.
  unfold sample_from_triangular, service_dist_dom.
  change (_get_sec ("00:00:30", "00:00:45", "00:02:00").1.1) with (Ok (A := Z) 30).
  change (_get_sec ("00:00:30", "00:00:45", "00:02:00").1.2) with (Ok (A := Z) 45).
  change (_get_sec ("00:00:30", "00:00:45", "00:02:00").2) with (Ok (A := Z) 120).
  unfold draw, lift, mbind, M_bind.
  by destruct (int_triangular 30 45 120 rng).
Qed.

(** Every [Passenger] built for a domestic traveller takes the next draw of
    the generator as its service time. *)
Lemma Passenger_init_draws `{NpRandom Rng} pid fl arr fn ln bd enque (rng : Rng) :
  _get_sec arr = Ok enque ->
  Passenger.__init__ pid fl arr fn ln bd "domestic" rng =
  (Ok (Passenger.mk pid fl arr fn ln bd "domestic" enque (-1)
         (Some (int_triangular 30 45 120 rng).1) false false),
   (int_triangular 30 45 120 rng).2).
Proof.
  intros Harr.
  unfold Passenger.__init__, Passenger.init_service_time.
  change (String.eqb "domestic" "domestic") with true. cbv iota.
  unfold lift, mbind, mret, M_bind, M_ret.
  rewrite Harr, sample_dom. reflexivity.
Qed.

(** C9 (code defect).  One flight with passenger 7 lands at 06:00:00.
    [init_service_times] stores the service time 30 for the passenger, once
    for the session.  The dispatch of that tick in the first run builds a
    [Passenger] object with a service time of its own, 32; the same dispatch
    in the next run builds the passenger again, with the next draw of the
    generator, 33. *)
Theorem C9_service_time_resampled_on_rerun :
  Rerun.session.1 = Ok tt
  /\ Rerun.stored = [(7, Some 30)]
  /\ Rerun.durations Rerun.first_run.2 = [(7, Some 32)]
  /\ Rerun.durations Rerun.second_run.2 = [(7, Some 32); (7, Some 33)].
Proof. repeat split; vm_compute; reflexivity. Qed.

(** * Further properties of the code *)

(** ** [_get_ttime] and [_get_sec] on every integer *)

Lemma digit_chars c :
  Py.is_digit c = true ->
  Py.is_space c = false /\ Ascii.eqb c ":" = false /\ Ascii.eqb c "-" = false
  /\ Ascii.eqb c "+" = false /\ 0 <= Py.digit_val c <= 9.
Proof.
  destruct c as [[] [] [] [] [] [] [] []]; vm_compute; intros H;
    try discriminate H; repeat split; congruence.
Qed.

Ltac digit_step :=
  match goal with
  | |- context [Py.is_digit ?c] => change (Py.is_digit c) with true; cbv iota
  end;
  match goal with
  | |- context [Py.digit_val ?c] =>
      let v := eval vm_compute in (Py.digit_val c) in change (Py.digit_val c) with v
  end.

Lemma digits_val_acc d : forall p,
  Py.digits_val (Z.pos p) (list_ascii_of_string (NilEmpty.string_of_uint d))
  = Some (Z.pos (Pos.of_uint_acc d p)).
Proof.
  induction d; intros p; cbn [NilEmpty.string_of_uint list_ascii_of_string Py.digits_val
                              Pos.of_uint_acc]; [done|..];
    digit_step; rewrite <- IHd; f_equal; lia.
Qed.

Lemma digits_val_uint d :
  Py.digits_val 0 (list_ascii_of_string (NilEmpty.string_of_uint d))
  = Some (Z.of_N (Pos.of_uint d)).
Proof.
  induction d; cbn [NilEmpty.string_of_uint list_ascii_of_string Py.digits_val Pos.of_uint];
    [done|..]; digit_step; [exact IHd | apply (digits_val_acc d)..].
Qed.

Lemma uint_chars d :
  Forall (fun c => Py.is_digit c = true) (list_ascii_of_string (NilEmpty.string_of_uint d)).
Proof. induction d; cbn [NilEmpty.string_of_uint list_ascii_of_string]; by constructor. Qed.

Lemma lstrip_no_space l : Chars.no_space l = true -> Py.lstrip l = l.
Proof.
  destruct l as [|c r]; [done|]. cbn. intros [Hc _]%andb_prop.
  apply negb_true_iff in Hc. by rewrite Hc.
Qed.

Lemma strip_no_space l : Chars.no_space l = true -> Py.strip l = l.
Proof.
  intros H. unfold Py.strip. rewrite (lstrip_no_space l H).
  rewrite lstrip_no_space; [apply rev_involutive|].
  unfold Chars.no_space in *. rewrite forallb_forall in *.
  intros c Hc. apply H. by apply in_rev.
Qed.

Lemma digits_no_space l :
  Forall (fun c => Py.is_digit c = true) l -> Chars.no_space l = true.
Proof.
  intros H. apply forallb_forall. intros c Hc.
  rewrite Forall_forall in H. apply list_elem_of_In, H, digit_chars in Hc as [-> _]. done.
Qed.

Lemma int_digits c r :
  Py.is_digit c = true -> Forall (fun c => Py.is_digit c = true) r ->
  Py.int (string_of_list_ascii (c :: r)) = Py.unsigned_val (c :: r).
Proof.
  intros Hc Hr. unfold Py.int. rewrite list_ascii_of_string_of_list_ascii.
  rewrite strip_no_space by (apply digits_no_space; by constructor).
  destruct c as [[] [] [] [] [] [] [] []]; try discriminate Hc; reflexivity.
Qed.


Lemma str_pos_chars p :
  exists c r,
    Py.str (Z.pos p) = string_of_list_ascii (c :: r)
    /\ Forall (fun c => Py.is_digit c = true) (c :: r)
    /\ Py.digits_val 0 (c :: r) = Some (Z.pos p).
Proof.
  unfold Py.str. cbn [Z.to_int NilZero.string_of_int]. unfold NilZero.string_of_uint.
  pose proof (DecimalPos.Unsigned.to_uint_nonnil p) as Hnn.
  pose proof (uint_chars (Pos.to_uint p)) as Hd.
  pose proof (digits_val_uint (Pos.to_uint p)) as Hv.
  rewrite DecimalPos.Unsigned.of_to in Hv. cbn [Z.of_N] in Hv.
  assert (Hs : (match Pos.to_uint p with
                | Decimal.Nil => "0"%string
                | _ => NilEmpty.string_of_uint (Pos.to_uint p)
                end) = NilEmpty.string_of_uint (Pos.to_uint p))
    by (by destruct (Pos.to_uint p)).
  rewrite Hs.
  destruct (list_ascii_of_string (NilEmpty.string_of_uint (Pos.to_uint p))) as [|c r] eqn:El.
  - destruct (Pos.to_uint p); [done|discriminate El..].
  - exists c, r. split; [|done].
    by rewrite <- El, string_of_list_ascii_of_string.
Qed.

(** [int(str(n))] is [n]. *)
Lemma int_str n : Py.int (Py.str n) = Ok n.
Proof.
  destruct n as [|p|p].
  - reflexivity.
  - destruct (str_pos_chars p) as (c & r & -> & Hd & Hv).
    apply Forall_cons in Hd as Hcr. destruct Hcr as [Hc Hr].
    rewrite int_digits by done. unfold Py.unsigned_val. by rewrite Hv.
  - destruct (str_pos_chars p) as (c & r & Hs & Hd & Hv).
    assert (Hneg : Py.str (Z.neg p) = String "-" (Py.str (Z.pos p))) by reflexivity.
    rewrite Hneg, Hs. unfold Py.int.
    cbn [list_ascii_of_string]. rewrite list_ascii_of_string_of_list_ascii.
    rewrite strip_no_space.
    + unfold Py.unsigned_val. rewrite Hv. reflexivity.
    + change (Chars.no_space ("-"%char :: c :: r))
        with (negb (Py.is_space "-") && Chars.no_space (c :: r)).
      by rewrite digits_no_space.
Qed.

Lemma str_no_colon n : Chars.no_colon (Py.str n) = true.
Proof.
  assert (Hp : forall p, Chars.no_colon (Py.str (Z.pos p)) = true).
  { intros p. destruct (str_pos_chars p) as (c & r & -> & Hd & _).
    unfold Chars.no_colon. rewrite list_ascii_of_string_of_list_ascii.
    apply forallb_forall. intros x Hx. rewrite Forall_forall in Hd.
    apply list_elem_of_In, Hd, digit_chars in Hx as (_ & -> & _). done. }
  destruct n as [|p|p]; [reflexivity | apply Hp |].
  change (Py.str (Z.neg p)) with (String "-" (Py.str (Z.pos p))).
  unfold Chars.no_colon in *. cbn [list_ascii_of_string forallb]. by rewrite Hp.
Qed.

Lemma split_no_colon s :
  Chars.no_colon s = true -> Py.split ":" s = [s].
Proof.
  induction s as [|c s IH]; [done|]. unfold Chars.no_colon. cbn [list_ascii_of_string forallb].
  intros [Hc Hs]%andb_prop. apply negb_true_iff in Hc.
  cbn [Py.split]. rewrite Hc. by rewrite (IH Hs).
Qed.

Lemma split_field s rest :
  Chars.no_colon s = true ->
  Py.split ":" (s ++ String ":" rest) = s :: Py.split ":" rest.
Proof.
  induction s as [|c s IH]; [done|]. unfold Chars.no_colon. cbn [list_ascii_of_string forallb].
  intros [Hc Hs]%andb_prop. apply negb_true_iff in Hc.
  cbn [Py.split String.append]. rewrite Hc. by rewrite (IH Hs).
Qed.

(** Every field that [_get_ttime] prints has no colon and reads back. *)
Lemma pad_reads_back n : Chars.no_colon (pad n) = true /\ Py.int (pad n) = Ok n.
Proof.
  unfold pad. destruct (n / 10 =? 0) eqn:E.
  - apply Z.eqb_eq in E.
    assert (Hn : 0 <= n < 100).
    { pose proof (Z.div_mod n 10 ltac:(lia)). pose proof (Z.mod_pos_bound n 10 ltac:(lia)). lia. }
    destruct (pad_shape n Hn) as (a & b & Hp & Da & Db & Ca & Cb & Hi).
    unfold pad in Hp. rewrite (proj2 (Z.eqb_eq _ _) E) in Hp. rewrite Hp.
    split; [|done]. unfold Chars.no_colon. cbn. by rewrite Ca, Cb.
  - split; [apply str_no_colon | apply int_str].
Qed.

(** The text of a tick reads back as the tick. *)
Lemma get_sec_of_ttime (seconds : Z) : _get_sec (_get_ttime seconds) = Ok seconds.
Proof.
  rewrite get_ttime_pad.
  destruct (pad_reads_back (seconds / 3600)) as [Ch Ih].
  destruct (pad_reads_back (seconds mod 3600 / 60)) as [Cm Im].
  destruct (pad_reads_back ((seconds mod 3600) mod 60)) as [Cs Is].
  unfold _get_sec.
  change (pad (seconds / 3600) ++ ":" ++ ?r)%string
    with (pad (seconds / 3600) ++ String ":" r)%string.
  rewrite split_field by done.
  change (pad (seconds mod 3600 / 60) ++ ":" ++ ?r)%string
    with (pad (seconds mod 3600 / 60) ++ String ":" r)%string.
  rewrite split_field by done. rewrite split_no_colon by done.
  rewrite Ih, Im, Is. cbn [mbind result_bind]. f_equal.
  pose proof (Z.div_mod seconds 3600). pose proof (Z.div_mod (seconds mod 3600) 60). lia.
Qed.

(** X1.  [_get_sec] reads back every text that [_get_ttime] prints: for
    every integer number of seconds, negative ones and those past a hundred
    hours included, [_get_sec (_get_ttime seconds)] returns [seconds]. *)
Theorem get_sec_get_ttime_all (seconds : Z) : _get_sec (_get_ttime seconds) = Ok seconds.
Proof. apply get_sec_of_ttime. Qed.


Lemma list_ascii_app s1 s2 :
  list_ascii_of_string (s1 ++ s2) = list_ascii_of_string s1 ++ list_ascii_of_string s2.
Proof. induction s1 as [|c s1 IH]; [done|]. cbn. by rewrite IH. Qed.

Lemma two_digits_value a b :
  Py.is_digit a = true -> Py.is_digit b = true ->
  Py.int (String a (String b EmptyString)) = Ok (10 * Py.digit_val a + Py.digit_val b).
Proof.
  intros Ha Hb. change (String a (String b EmptyString)) with (string_of_list_ascii [a; b]).
  rewrite int_digits by (done || by repeat constructor).
  unfold Py.unsigned_val. cbn [Py.digits_val]. rewrite Ha, Hb. reflexivity.
Qed.

(** The text has the eight-character shape exactly for the first hundred hours. *)
Lemma ttime_is_HHMMSS (seconds : Z) :
  is_HHMMSS (_get_ttime seconds) = true <-> 0 <= seconds < 360000.
Proof.
  pose proof (Z.div_mod seconds 3600 ltac:(lia)) as Hdm.
  pose proof (Z.mod_pos_bound seconds 3600 ltac:(lia)) as Hr.
  assert (Hm : 0 <= seconds mod 3600 / 60 < 100).
  { split; [apply Z.div_pos; lia|]. apply Z.div_lt_upper_bound; lia. }
  assert (Hc : 0 <= (seconds mod 3600) mod 60 < 100).
  { pose proof (Z.mod_pos_bound (seconds mod 3600) 60). lia. }
  rewrite get_ttime_pad.
  destruct (pad_shape _ Hm) as (c & d & -> & Dc & Dd & Cc & Cd & Im).
  destruct (pad_shape _ Hc) as (e & f & -> & De & Df & Ce & Cf & Is).
  split.
  - destruct (pad_reads_back (seconds / 3600)) as [Ch Ih].
    unfold is_HHMMSS. rewrite list_ascii_app. unfold Chars.no_colon in Ch.
    destruct (list_ascii_of_string (pad (seconds / 3600))) as [|a [|b [|z l]]] eqn:El;
      cbn [app list_ascii_of_string String.append forallb] in *.
    + intros H. discriminate H.
    + intros H. discriminate H.
    + intros H. rewrite !andb_true_iff in H.
      destruct H as (((((((Ha & Hb) & _) & _) & _) & _) & _) & _).
      assert (Hp : pad (seconds / 3600) = String a (String b EmptyString)).
      { by rewrite <- (string_of_list_ascii_of_string (pad _)), El. }
      rewrite Hp, two_digits_value in Ih by done.
      injection Ih as Ih.
      pose proof (digit_chars a Ha) as (_ & _ & _ & _ & ?).
      pose proof (digit_chars b Hb) as (_ & _ & _ & _ & ?). lia.
    + intros H. rewrite !andb_true_iff in Ch. destruct Ch as (_ & _ & Hz & _).
      apply negb_true_iff in Hz.
      destruct (l ++ _) as [|? [|? [|? [|? [|? [|? ?]]]]]]; try discriminate H.
      rewrite !andb_true_iff in H.
      destruct H as ((((((_ & Hz') & _) & _) & _) & _) & _). congruence.
  - intros Hs.
    assert (Hh : 0 <= seconds / 3600 < 100).
    { split; [apply Z.div_pos; lia|]. apply Z.div_lt_upper_bound; lia. }
    destruct (pad_shape _ Hh) as (a & b & -> & Da & Db & Ca & Cb & Ih).
    unfold is_HHMMSS. simpl. by rewrite Da, Db, Dc, Dd, De, Df.
Qed.

(** X2.  [_get_ttime seconds] has the eight-character shape "HH:MM:SS"
    exactly when [0 <= seconds < 360000]: a negative number or one from a
    hundred hours on prints an hour field that is not two digits. *)
Theorem get_ttime_shape (seconds : Z) :
  is_HHMMSS (_get_ttime seconds) = true <-> 0 <= seconds < 360000.
Proof. apply ttime_is_HHMMSS. Qed.


(** *** Reading a clock text *)








(** ** [dispatch_plane] *)

Section Dispatching.
Context `{NpRandom Rng}.







End Dispatching.







(** ** Routing of arrivals *)

Lemma cell_eqb_eq a b : DataFrame.cell_eqb a b = true <-> a = b.
Proof.
  destruct a as [x|x], b as [y|y]; cbn; split; try done.
  - by intros ->%Z.eqb_eq.
  - intros [= ->]. apply Z.eqb_refl.
  - by intros ->%String.eqb_eq.
  - intros [= ->]. apply String.eqb_refl.
Qed.

Lemma grown_refl heap s : Routing.grown heap s s.
Proof.
  repeat split. exists []. split; [by rewrite app_nil_r | constructor].
Qed.

Lemma grown_trans heap s1 s2 s3 :
  Routing.grown heap s1 s2 -> Routing.grown heap s2 s3 -> Routing.grown heap s1 s3.
Proof.
  intros (Hi & Hp & Hc & a1 & Hq & Ha) (Hi' & Hp' & Hc' & a2 & Hq' & Ha').
  split; [congruence|]. split; [congruence|]. split; [congruence|].
  exists (a1 ++ a2). split; [by rewrite Hq', Hq, app_assoc|].
  apply Forall_app. split; [done|].
  eapply Forall_impl; [exact Ha'|]. intros l (p & Hl & Hn). exists p. split; [done|congruence].
Qed.

Lemma routed_refl w : Routing.routed w w.
Proof.
  split; [done|]. induction (Customs.sections w); constructor; [apply grown_refl | done].
Qed.

Lemma routed_trans w1 w2 w3 :
  Routing.routed w1 w2 -> Routing.routed w2 w3 -> Routing.routed w1 w3.
Proof.
  intros [Hs H12] [Hs' H23]. split; [congruence|]. rewrite Hs in H23.
  revert H23. generalize (Customs.sections w3).
  induction H12 as [|a b l k Hab _ IH]; intros k3 H23; inversion H23; subst; constructor.
  - by eapply grown_trans.
  - by apply IH.
Qed.

Lemma queued_insert (w : Customs.World) r section l agent' :
  Customs.sections w !! r = Some section ->
  AssignmentAgent.queue agent'
  = AssignmentAgent.queue (Subsection.assignment_agent section) ++ [l] ->
  Routing.queued
    (Customs.set_sections
       (<[r := Subsection.set_assignment_agent agent' section]> (Customs.sections w)) w)
  ≡ₚ Routing.queued w ++ [l].
Proof.
  intros Hr Hq. unfold Routing.queued. cbn [Customs.set_sections Customs.sections].
  rewrite insert_take_drop by (by eapply lookup_lt_Some).
  rewrite <- (take_drop_middle _ _ _ Hr) at 3.
  rewrite !map_app, !concat_app. cbn [map concat Subsection.set_assignment_agent
    Subsection.assignment_agent]. rewrite Hq.
  rewrite <- !app_assoc. do 2 apply Permutation_app_head.
  cbn. apply Permutation_cons_append.
Qed.

(** One pass of the inner [for]: nothing moves, or the last passenger of the
    plane moves to a section of its own label. *)
Lemma route_last_spec refs plane w r plane' w' :
  Customs.route_last refs plane w = (r, (plane', w')) ->
  Routing.routed w w'
  /\ ((plane' = plane /\ w' = w)
      \/ (r = Ok tt /\ exists l,
            Plane.plist plane = Plane.plist plane' ++ [l]
            /\ plane' = Plane.set_plist (Plane.plist plane') plane
            /\ Routing.queued w' ≡ₚ Routing.queued w ++ [l])).
Proof.
  induction refs as [|ref rest IH]; cbn [Customs.route_last].
  - intros [= <- <- <-]. split; [apply routed_refl | by left].
  - destruct (Customs.sections w !! ref) as [section|] eqn:Hsec;
      [|intros [= <- <- <-]; split; [apply routed_refl | by left]].
    destruct (last (Plane.plist plane)) as [l|] eqn:Hlast;
      [|intros [= <- <- <-]; split; [apply routed_refl | by left]].
    destruct (Shared.heap (Customs.shared w) !! l) as [p|] eqn:Hp;
      [|intros [= <- <- <-]; split; [apply routed_refl | by left]].
    destruct (DataFrame.cell_eqb _ _) eqn:Hid; [|exact IH].
    intros [= <- <- <-]. apply cell_eqb_eq in Hid.
    apply last_Some in Hlast as [front Hfront].
    assert (Hrem : removelast (Plane.plist plane) = front).
    { rewrite Hfront. by rewrite removelast_last. }
    split.
    + split; [done|]. cbn [Customs.set_sections Customs.sections].
      rewrite <- (list_insert_id _ _ _ Hsec) at 1.
      apply Forall2_insert.
      * clear. induction (Customs.sections w); constructor; [apply grown_refl | done].
      * repeat split. exists [l]. split; [done|]. constructor; [|constructor].
        by exists p.
    + right. split; [done|]. exists l.
      split; [by rewrite Hrem|]. split; [by rewrite Hrem|].
      by apply queued_insert.
Qed.

Lemma handle_loop_spec fuel g : forall plane w r plane' w',
  Customs.handle_loop fuel g plane w = Some (r, (plane', w')) ->
  Routing.routed w w'
  /\ plane' = Plane.set_plist (Plane.plist plane') plane
  /\ (r = Ok tt -> Plane.plist plane' = [])
  /\ exists moved,
       Plane.plist plane = Plane.plist plane' ++ moved
       /\ Routing.queued w' ≡ₚ Routing.queued w ++ moved.
Proof.
  assert (Hstay : forall (plane : Plane.t) w,
    Routing.routed w w /\ plane = Plane.set_plist (Plane.plist plane) plane
    /\ exists moved, Plane.plist plane = Plane.plist plane ++ moved
         /\ Routing.queued w ≡ₚ Routing.queued w ++ moved).
  { intros plane w. split; [apply routed_refl|]. split; [by destruct plane|].
    exists []. by rewrite !app_nil_r. }
  induction fuel as [|fuel IH]; intros plane w r plane' w'; cbn [Customs.handle_loop]; [done|].
  destruct (0 <? length (Plane.plist plane))%nat eqn:Hlen.
  - destruct (Globals.lookup Globals.subsections g) as [refs|e].
    + destruct (Customs.route_last refs plane w) as [[[]|e] [plane1 w1]] eqn:Hroute.
      * intros Hrest. destruct (IH _ _ _ _ _ Hrest) as (Hr & Hpl & Hok & moved & Hm & Hq).
        destruct (route_last_spec _ _ _ _ _ _ Hroute) as [Hr1 Hcase].
        split; [by eapply routed_trans|].
        destruct Hcase as [[-> ->]|(_ & l & Hl & Hpl1 & Hq1)].
        { split; [done|]. split; [done|]. by exists moved. }
        split; [rewrite Hpl, Hpl1; by destruct plane|]. split; [done|].
        exists (moved ++ [l]). split; [by rewrite Hl, Hm, app_assoc|].
        rewrite Hq, Hq1. rewrite <- !app_assoc. apply Permutation_app_head.
        apply Permutation_app_comm.
      * intros [= <- <- <-].
        destruct (route_last_spec _ _ _ _ _ _ Hroute) as [Hr1 Hcase].
        split; [done|]. destruct Hcase as [[-> ->]|(? & _)]; [|done].
        destruct (Hstay plane w) as (_ & ? & ?). done.
    + intros [= <- <- <-]. destruct (Hstay plane w) as (? & ? & ?). done.
  - intros [= <- <- <-]. destruct (Hstay plane w) as (? & ? & ?).
    split; [done|]. split; [done|]. split; [|done].
    intros _. apply Nat.ltb_ge in Hlen. destruct (Plane.plist plane); [done|cbn in Hlen; lia].
Qed.

(** X7.  Whenever [handle_arrivals] stops, by returning or by raising, the
    passengers and the output are as before, every section has its id, its
    servers and its agent's current passenger as before, and its agent's
    queue has grown at the back by passengers whose nationality is the
    section's id; the plane has changed in its [plist] only, which is empty
    when the call returned. *)
Theorem handle_arrivals_routes_by_nationality fuel g plane w r plane' w' :
  Customs.handle_arrivals fuel g (Some plane) w = Some (r, (Some plane', w')) ->
  Routing.routed w w'
  /\ plane' = Plane.set_plist (Plane.plist plane') plane
  /\ (r = Ok tt -> Plane.plist plane' = []).
Proof.
  unfold Customs.handle_arrivals.
  destruct (Customs.handle_loop fuel g plane w) as [[r1 [plane1 w1]]|] eqn:Hloop; [|done].
  intros [= <- <- <-].
  destruct (handle_loop_spec _ _ _ _ _ _ _ Hloop) as (Hr & Hpl & Hok & _).
  done.
Qed.

Lemma handle_arrivals_routes_witness :
  Customs.handle_arrivals 2 Hall.own_sections (Some (Hall.plane [0%nat])) Hall.world
    = Some (Ok tt, (Some (Hall.plane []), Routing.arrived))
  /\ Routing.routed Hall.world Routing.arrived
  /\ Hall.plane [] = Plane.set_plist (Plane.plist (Hall.plane [])) (Hall.plane [0%nat])
  /\ (Ok tt = Ok tt -> Plane.plist (Hall.plane []) = []).
Proof.
  split; [reflexivity|].
  apply (handle_arrivals_routes_by_nationality 2 Hall.own_sections (Hall.plane [0%nat])
           Hall.world (Ok tt) (Hall.plane []) Routing.arrived).
  reflexivity.
Defined.

(** X8.  Whenever [handle_arrivals] stops, the passengers that left the
    plane are a tail of its [plist], and the agents' queues hold what they
    held before and these passengers, each once; when the call returned, all
    passengers of the plane have been moved. *)
Theorem handle_arrivals_conserves fuel g plane w r plane' w' :
  Customs.handle_arrivals fuel g (Some plane) w = Some (r, (Some plane', w')) ->
  exists moved,
    Plane.plist plane = Plane.plist plane' ++ moved
    /\ Routing.queued w' ≡ₚ Routing.queued w ++ moved
    /\ (r = Ok tt -> moved = Plane.plist plane).
Proof.
  unfold Customs.handle_arrivals.
  destruct (Customs.handle_loop fuel g plane w) as [[r1 [plane1 w1]]|] eqn:Hloop; [|done].
  intros [= <- <- <-].
  destruct (handle_loop_spec _ _ _ _ _ _ _ Hloop) as (_ & _ & Hok & moved & Hm & Hq).
  exists moved. split; [done|]. split; [done|].
  intros Hr1. by rewrite Hm, (Hok Hr1).
Qed.

Lemma handle_arrivals_conserves_witness :
  Customs.handle_arrivals 2 Hall.own_sections (Some (Hall.plane [0%nat])) Hall.world
    = Some (Ok tt, (Some (Hall.plane []), Routing.arrived))
  /\ exists moved,
       Plane.plist (Hall.plane [0%nat]) = Plane.plist (Hall.plane []) ++ moved
       /\ Routing.queued Routing.arrived ≡ₚ Routing.queued Hall.world ++ moved
       /\ (Ok tt = Ok tt -> moved = Plane.plist (Hall.plane [0%nat])).
Proof.
  split; [reflexivity|].
  apply (handle_arrivals_conserves 2 Hall.own_sections (Hall.plane [0%nat])
           Hall.world (Ok tt) (Hall.plane []) Routing.arrived).
  reflexivity.
Defined.


(** ** The sections of a hall *)

Lemma existsb_cell_eqb c seen : existsb (DataFrame.cell_eqb c) seen = true <-> c ∈ seen.
Proof.
  rewrite existsb_exists. split.
  - intros (x & Hx & ->%cell_eqb_eq). by apply list_elem_of_In.
  - intros Hc. exists c. split; [by apply list_elem_of_In | by apply cell_eqb_eq].
Qed.

Lemma unique_spec l : forall seen,
  NoDup (DataFrame.unique seen l)
  /\ forall c, c ∈ DataFrame.unique seen l -> c ∈ l /\ c ∉ seen.
Proof.
  induction l as [|c r IH]; intros seen; cbn [DataFrame.unique].
  - split; [constructor|]. intros c Hc. by apply elem_of_nil in Hc.
  - destruct (existsb (DataFrame.cell_eqb c) seen) eqn:E.
    + destruct (IH seen) as [Hn Hs]. split; [done|].
      intros x Hx. destruct (Hs x Hx). split; [by right | done].
    + destruct (IH (c :: seen)) as [Hn Hs]. split.
      * constructor; [|done]. intros Hc. destruct (Hs c Hc) as [_ Hnot].
        apply Hnot. by left.
      * intros x [->|Hx]%elem_of_cons.
        { split; [by left|]. intros Hin%existsb_cell_eqb. congruence. }
        destruct (Hs x Hx) as [? Hnot]. split; [by right|].
        intros Hin. apply Hnot. by right.
Qed.

Lemma unique_complete l : forall seen c,
  c ∈ l -> c ∈ seen \/ c ∈ DataFrame.unique seen l.
Proof.
  induction l as [|x r IH]; intros seen c; [by intros ?%elem_of_nil|].
  cbn [DataFrame.unique]. intros [->|Hc]%elem_of_cons.
  - destruct (existsb (DataFrame.cell_eqb x) seen) eqn:E.
    + left. by apply existsb_cell_eqb.
    + right. by left.
  - destruct (existsb (DataFrame.cell_eqb x) seen) eqn:E; [by apply IH|].
    destruct (IH (x :: seen) c Hc) as [[->|?]%elem_of_cons|?].
    + right. by left.
    + by left.
    + right. by right.
Qed.

Lemma init_server_loop_ids arch rows : forall rtn l,
  ParallelServer.init_server_loop arch rows rtn = Ok l ->
  exists ids, l = rtn ++ map ServiceAgent.__init__ ids
    /\ Forall2 (fun row c => ParallelServer.row_id arch row = Ok c) rows ids.
Proof.
  induction rows as [|row rest IH]; intros rtn l; cbn [ParallelServer.init_server_loop].
  - intros [= <-]. exists []. split; [by rewrite app_nil_r | constructor].
  - destruct (ParallelServer.row_id arch row) as [i|e] eqn:Hrow; [|done]. cbn.
    intros (ids & -> & Hids)%IH. exists (i :: ids).
    split; [by rewrite <- app_assoc | by constructor].
Qed.

Lemma row_ids_column arch ids :
  DataFrame.rows arch <> [] ->
  Forall2 (fun row c => ParallelServer.row_id arch row = Ok c) (DataFrame.rows arch) ids ->
  DataFrame.column "id" arch = Ok ids.
Proof.
  unfold DataFrame.column, ParallelServer.row_id.
  destruct (DataFrame.get_loc "id" (DataFrame.columns arch)) as [i|].
  - intros _ Hall. f_equal. induction Hall as [|row c rows ids Hrow _ IH]; [done|].
    cbn. destruct (row !! i); [|done]. injection Hrow as ->. by rewrite IH.
  - intros Hne Hall. destruct Hall; [done|discriminate].
Qed.

Lemma Subsection_init_built arch labels label s :
  DataFrame.column "subsection" arch = Ok labels ->
  label ∈ labels ->
  (sub ← DataFrame.select "subsection" label arch; Subsection.__init__ label sub) = Ok s ->
  Subsection.id s = label /\ Layout.built arch s.
Proof.
  unfold DataFrame.column, DataFrame.select.
  destruct (DataFrame.get_loc "subsection" (DataFrame.columns arch)) as [i|] eqn:Hloc; [|done].
  intros [= <-] Hin. cbn [mbind result_bind].
  set (sub := DataFrame.mk _ _).
  unfold Subsection.__init__, ParallelServer.__init__, ParallelServer.init_server_list.
  unfold DataFrame.column. cbn [DataFrame.columns sub]. rewrite Hloc. cbn [mbind result_bind].
  destruct (DataFrame.unique [] _) as [|server_type others]; [done|].
  destruct (ParallelServer.init_server_loop sub (DataFrame.rows sub) []) as [servers|e] eqn:Hloop;
    [|done].
  intros [= <-]. cbn [Subsection.id]. split; [done|].
  apply init_server_loop_ids in Hloop as (ids & Hl & Hids). subst servers.
  assert (Hne : DataFrame.rows sub <> []).
  { apply list_elem_of_omap in Hin as (row & Hrow%list_elem_of_In & Hcell).
    cbn [sub DataFrame.rows]. intros Hnil.
    assert (Hf : In row (List.filter (fun row : list DataFrame.cell =>
                   match row !! i with
                   | Some c => DataFrame.cell_eqb c label
                   | None => false
                   end) (DataFrame.rows arch))).
    { apply filter_In. split; [done|]. rewrite Hcell. by apply cell_eqb_eq. }
    rewrite Hnil in Hf. destruct Hf. }
  exists sub, ids. unfold DataFrame.select. rewrite Hloc.
  split; [done|]. split; [by apply row_ids_column|].
  split; [symmetry; by eapply Forall2_length|].
  split; [|done]. intros ->. apply Forall2_length in Hids. by destruct (DataFrame.rows sub).
Qed.

Lemma init_subsection_loop_built arch labels : forall todo l,
  DataFrame.column "subsection" arch = Ok labels ->
  (forall c, c ∈ todo -> c ∈ labels) ->
  Customs.init_subsection_loop arch todo = Ok l ->
  map Subsection.id l = todo /\ Forall (Layout.built arch) l.
Proof.
  induction todo as [|label rest IH]; intros l Hcol Hsub; cbn [Customs.init_subsection_loop].
  - by intros [= <-].
  - destruct (DataFrame.select "subsection" label arch) as [sub|e] eqn:Hsel; [|done].
    cbn [mbind result_bind].
    destruct (Subsection.__init__ label sub) as [s|e] eqn:Hs; [|done]. cbn [mbind result_bind].
    destruct (Customs.init_subsection_loop arch rest) as [l'|e] eqn:Hrest; [|done].
    intros [= <-].
    destruct (IH l' Hcol) as [Hids Hbuilt]; [intros c Hc; apply Hsub; by right | done |].
    destruct (Subsection_init_built arch labels label s Hcol) as [Hid Hb].
    { apply Hsub. by left. }
    { by rewrite Hsel. }
    cbn. split; [by rewrite Hid, Hids | by constructor].
Qed.

(** X6.  When [init_subsections] returns, the sections it built carry the
    labels of the frame's [subsection] column in order of first appearance,
    each label once; and every section has an idle assignment agent and one
    fresh server for each row under its label, in row order and under the
    row's [id], so no section is without a server. *)
Theorem init_subsections_layout (customs_arch : DataFrame.t) (l : list Subsection.t) :
  Customs.init_subsections customs_arch = Ok l ->
  exists labels,
    DataFrame.column "subsection" customs_arch = Ok labels
    /\ map Subsection.id l = DataFrame.unique [] labels
    /\ NoDup (map Subsection.id l)
    /\ (forall label, label ∈ labels <-> label ∈ map Subsection.id l)
    /\ Forall (Layout.built customs_arch) l.
Proof.
  unfold Customs.init_subsections.
  destruct (DataFrame.column "subsection" customs_arch) as [labels|e] eqn:Hcol; [|done].
  cbn [mbind result_bind]. intros Hloop. exists labels. split; [done|].
  destruct (unique_spec labels []) as [Hnd Hsub].
  destruct (init_subsection_loop_built customs_arch labels (DataFrame.unique [] labels) l Hcol)
    as [Hids Hbuilt];
    [intros c Hc; by apply Hsub | done |].
  split; [done|]. split; [by rewrite Hids|]. split; [|done].
  rewrite Hids. intros label. split; [|intros Hl; by apply Hsub].
  intros Hl. by destruct (unique_complete labels [] label Hl) as [?%elem_of_nil|?].
Qed.

Lemma init_subsections_layout_witness :
  Customs.init_subsections Hall.frame = Ok [Hall.section]
  /\ exists labels,
       DataFrame.column "subsection" Hall.frame = Ok labels
       /\ map Subsection.id [Hall.section] = DataFrame.unique [] labels
       /\ NoDup (map Subsection.id [Hall.section])
       /\ (forall label, label ∈ labels <-> label ∈ map Subsection.id [Hall.section])
       /\ Forall (Layout.built Hall.frame) [Hall.section].
Proof.
  split; [reflexivity|].
  apply (init_subsections_layout Hall.frame [Hall.section]). reflexivity.
Defined.

(** ** What [update_servers] leaves alone *)

Lemma update_server_loop_blank sched idx servers :
  map Blank.server (Customs.update_server_loop sched idx servers).2 = map Blank.server servers.
Proof.
  induction servers as [|s rest IH]; cbn [Customs.update_server_loop]; [done|].
  destruct (Customs.online_status sched idx s); [|done].
  destruct (Customs.update_server_loop sched idx rest) as [r rest'].
  cbn [snd map] in *. rewrite IH. by destruct s.
Qed.

Lemma update_section_loop_blank sched idx refs : forall secs,
  map Blank.section (Customs.update_section_loop sched idx refs secs).2
  = map Blank.section secs.
Proof.
  induction refs as [|r rest IH]; intros secs; cbn [Customs.update_section_loop]; [done|].
  destruct (secs !! r) as [sec|] eqn:Hr; [|done].
  pose proof (update_server_loop_blank sched idx
                (ParallelServer.server_list (Subsection.parallel_server sec))) as Hl.
  destruct (Customs.update_server_loop sched idx
              (ParallelServer.server_list (Subsection.parallel_server sec))) as [res l].
  cbn [snd] in Hl.
  set (sec' := Subsection.set_parallel_server _ sec).
  assert (Hsec : Blank.section sec' = Blank.section sec).
  { subst sec'. destruct sec as [i [sl fl qs mq] ag]. unfold Blank.section. cbn in *.
    by rewrite Hl. }
  assert (Hsame : map Blank.section (<[r:=sec']> secs) = map Blank.section secs).
  { change (map ?f ?l) with (f <$> l). rewrite list_fmap_insert, Hsec.
    apply list_insert_id. by rewrite list_lookup_fmap, Hr. }
  destruct res; cbn [snd].
  - by rewrite IH.
  - exact Hsame.
Qed.

(** X9.  Whether [update_servers] returns or raises, the world it leaves
    differs from the one it was given in the [is_serving] flags of servers at
    most: queues, [online] flags, sections, passengers and output are
    untouched. *)
Theorem update_servers_writes_is_serving_only (g : Globals.t) (self : Customs.t)
    (server_schedule : DataFrame.t) (w : Customs.World) :
  Blank.world (Customs.update_servers g self server_schedule w).2 = Blank.world w.
Proof.
  unfold Customs.update_servers.
  destruct (Customs.find_time_idx g (DataFrame.columns server_schedule) 0) as [idx|e]; [|done].
  pose proof (update_section_loop_blank server_schedule idx (Customs.subsections self)
                (Customs.sections w)) as H.
  destruct (Customs.update_section_loop server_schedule idx (Customs.subsections self)
              (Customs.sections w)) as [r secs].
  unfold Blank.world. cbn [snd Customs.sections Customs.shared Customs.set_sections] in *.
  by rewrite H.
Qed.

(** ** What [serve] and [service_passengers] leave alone *)

#[local] Instance ages_preorder : PreOrder Frame.ages.
Proof.
  split.
  - by intros p.
  - intros p q r [H1 H2] [H3 H4]. split; [congruence | auto].
Qed.

#[local] Instance server_rel_preorder : PreOrder Frame.server_rel.
Proof.
  split.
  - by intros s.
  - intros a b c [H1 H2] [H3 H4]. split; [congruence | by etrans].
Qed.

#[local] Instance shared_rel_preorder : PreOrder Frame.shared_rel.
Proof.
  split.
  - intros sh. split; reflexivity.
  - intros a b c [H1 H2] [H3 H4]. split; [by etrans | by etrans].
Qed.

#[local] Instance serve_rel_preorder : PreOrder Frame.serve_rel.
Proof.
  split.
  - by intros st.
  - intros a b c [H1 H2] [H3 H4]. split; by etrans.
Qed.

Lemma keeps_bind {S A B} (R : S -> S -> Prop) `{!PreOrder R} (m : M S A) (k : A -> M S B) :
  Frame.keeps R m -> (forall a, Frame.keeps R (k a)) -> Frame.keeps R (m ≫= k).
Proof.
  intros Hm Hk st. unfold mbind, M_bind.
  pose proof (Hm st) as H1. destruct (m st) as [[a|e] st1]; simpl in *; [|done].
  etrans; [exact H1 | apply Hk].
Qed.

Lemma keeps_ret {S A} (R : S -> S -> Prop) `{!PreOrder R} (a : A) : Frame.keeps R (mret a).
Proof. by intros st. Qed.

Lemma keeps_throw {S A} (R : S -> S -> Prop) `{!PreOrder R} (e : exn) :
  Frame.keeps R (mthrow (M := M S) (A := A) e).
Proof. by intros st. Qed.

Lemma keeps_lift {S A} (R : S -> S -> Prop) `{!PreOrder R} (r : result A) :
  Frame.keeps R (lift r).
Proof. by intros st. Qed.

Lemma ages_insert h l p f :
  h !! l = Some p -> Frame.ages p (f p) -> Forall2 Frame.ages h (<[l := f p]> h).
Proof.
  intros Hl Hp. apply Forall2_same_length_lookup_2; [by rewrite length_insert|].
  intros i x y Hx Hy. destruct (decide (i = l)) as [->|Hne].
  - rewrite list_lookup_insert_eq in Hy by (by eapply lookup_lt_Some). congruence.
  - rewrite list_lookup_insert_ne in Hy by done. by assert (x = y) as -> by congruence.
Qed.

Lemma keeps_setattr f l :
  (forall p, Frame.ages p (f p)) -> Frame.keeps Frame.serve_rel (ServiceAgent.setattr f l).
Proof.
  intros Hf [s sh]. unfold ServiceAgent.setattr. cbn [fst snd].
  destruct (Shared.heap sh !! l) as [p|] eqn:Hl; [|done].
  split; [done|]. split; [|done]. cbn. by apply ages_insert.
Qed.

Lemma keeps_getattr {A} (f : Passenger.t -> A) l :
  Frame.keeps Frame.serve_rel (ServiceAgent.getattr f l).
Proof.
  intros [s sh]. unfold ServiceAgent.getattr. cbn [fst snd].
  by destruct (Shared.heap sh !! l).
Qed.


Lemma keeps_self : Frame.keeps Frame.serve_rel ServiceAgent.self.
Proof. by intros st. Qed.

Lemma keeps_update f :
  (forall s, Frame.server_rel s (f s)) -> Frame.keeps Frame.serve_rel (ServiceAgent.update f).
Proof. intros Hf [s sh]. split; [apply Hf | done]. Qed.

Lemma keeps_queue_pop0 : Frame.keeps Frame.serve_rel ServiceAgent.queue_pop0.
Proof.
  intros [s sh]. unfold ServiceAgent.queue_pop0. cbn [fst snd].
  destruct (ServiceAgent.queue s) as [|p q] eqn:Hq; [done|].
  split; [|done]. split; [done|]. cbn. rewrite Hq. by apply suffix_cons_r.
Qed.

Lemma keeps_output_append l : Frame.keeps Frame.serve_rel (ServiceAgent.output_append l).
Proof.
  intros [s sh]. unfold ServiceAgent.output_append. cbn [fst snd].
  destruct (Shared.output sh) as [ps|items] eqn:Ho; [done|].
  split; [done|]. split; [done|]. cbn. rewrite Ho. cbn. by apply prefix_app_r.
Qed.

Lemma keeps_add_int a b : Frame.keeps Frame.serve_rel (ServiceAgent.add_int a b).
Proof. intros st. by destruct b. Qed.

(** One call of [serve] keeps the server's configuration, only takes from
    the front of its queue, keeps every passenger's facts, never unmarks a
    processed passenger and only appends to the output. *)
Lemma serve_keeps g : Frame.keeps Frame.serve_rel (ServiceAgent.serve g).
Proof.
  unfold ServiceAgent.serve.
  repeat first
    [ apply keeps_bind; [apply _ | |intros ?]
    | apply keeps_self
    | apply keeps_queue_pop0
    | apply keeps_lift; apply _
    | apply keeps_getattr
    | apply keeps_add_int
    | apply keeps_output_append
    | apply keeps_ret; apply _
    | apply keeps_setattr; intros p; split; [done | by destruct p]
    | apply keeps_update; intros s; split; by destruct s
    | match goal with |- Frame.keeps _ (if ?b then _ else _) => destruct b end ].
Qed.

Lemma service_loop_keeps g servers : forall sh,
  let out := (service_loop g servers sh).2 in
  Forall2 Frame.server_rel servers out.1 /\ Frame.shared_rel sh out.2.
Proof.
  induction servers as [|s rest IH]; intros sh; cbn [service_loop].
  - split; [constructor | reflexivity].
  - destruct (0 <? length (ServiceAgent.queue s))%nat.
    + pose proof (serve_keeps g (s, sh)) as [Hs Hsh].
      destruct (ServiceAgent.serve g (s, sh)) as [[[]|e] [s' sh']]; cbn [fst snd] in *.
      * specialize (IH sh'). destruct (service_loop g rest sh') as [r [rest' sh'']].
        cbn [fst snd] in *. destruct IH as [IH1 IH2].
        split; [by constructor | by etrans].
      * split; [|done]. constructor; [done | reflexivity].
    + specialize (IH sh). destruct (service_loop g rest sh) as [r [rest' sh']].
      cbn [fst snd] in *. destruct IH as [IH1 IH2].
      split; [|done]. constructor; [reflexivity | done].
Qed.

(** X10.  Whether [service_passengers] returns or raises, it neither
    creates nor drops a passenger, writes no field of a passenger other than
    [soujourn_time] and [processed], and never clears a [processed] flag. *)
Theorem service_passengers_keeps_passengers (g : Globals.t) (st : ParallelServer.St) :
  Forall2 Frame.ages (Shared.heap st.2) (Shared.heap (service_passengers g st).2.2).
Proof.
  destruct st as [pool sh]. unfold service_passengers. cbn [fst snd].
  pose proof (service_loop_keeps g (server_list pool) sh) as [_ [H _]].
  by destruct (service_loop g (server_list pool) sh) as [r [l sh']].
Qed.

(** X11.  Whether [service_passengers] returns or raises, every server
    keeps its id, its [online] flag and its [max_queue_size], its queue has
    only lost passengers from the front, and the pool's own fields are as
    before. *)
Theorem service_passengers_never_enqueues (g : Globals.t) (st : ParallelServer.St) :
  let pool' := (service_passengers g st).2.1 in
  Forall2 Frame.server_rel (server_list st.1) (server_list pool')
  /\ has_space_in_a_server_queue pool' = has_space_in_a_server_queue st.1
  /\ queue_size pool' = queue_size st.1
  /\ min_queue pool' = min_queue st.1.
Proof.
  destruct st as [pool sh]. unfold service_passengers. cbn [fst snd].
  pose proof (service_loop_keeps g (server_list pool) sh) as [H _].
  by destruct (service_loop g (server_list pool) sh) as [r [l sh']].
Qed.


Lemma service_loop_output g servers : forall sh l,
  Shared.output sh = Output.ServicedPassengers l ->
  Shared.output (service_loop g servers sh).2.2 = Output.ServicedPassengers l.
Proof.
  induction servers as [|s rest IH]; intros sh l Hout; cbn [service_loop]; [done|].
  destruct (0 <? length (ServiceAgent.queue s))%nat.
  - pose proof (serve_keeps_ServicedPassengers g (s, sh) l Hout) as Hs.
    destruct (ServiceAgent.serve g (s, sh)) as [[[]|e] [s' sh']]; cbn [fst snd] in *; [|done].
    specialize (IH sh' l Hs). by destruct (service_loop g rest sh') as [r [rest' sh'']].
  - specialize (IH sh l Hout). by destruct (service_loop g rest sh) as [r [rest' sh']].
Qed.

(** X12.  [service_passengers] only appends to the output: what was in it
    stays in front; and an output that is a [ServicedPassengers] object is
    left exactly as it was, since such an object has no [append]. *)
Theorem service_passengers_output (g : Globals.t) (st : ParallelServer.St) :
  let out := Shared.output (service_passengers g st).2.2 in
  Output.contents (Shared.output st.2) `prefix_of` Output.contents out
  /\ (forall l, Shared.output st.2 = Output.ServicedPassengers l ->
                out = Output.ServicedPassengers l).
Proof.
  destruct st as [pool sh]. unfold service_passengers. cbn [fst snd]. split.
  - pose proof (service_loop_keeps g (server_list pool) sh) as [_ [_ H]].
    by destruct (service_loop g (server_list pool) sh) as [r [l sh']].
  - intros l Hl. pose proof (service_loop_output g (server_list pool) sh l Hl) as H.
    by destruct (service_loop g (server_list pool) sh) as [r [l' sh']].
Qed.

Lemma serve_module_globals_NameError s sh :
  ServiceAgent.queue s <> [] ->
  (ServiceAgent.serve Globals.module_globals (s, sh)).1 = Raise NameError.
Proof.
  destruct s as [o i q srv cur mx]. cbn [ServiceAgent.queue]. intros Hq.
  destruct q as [|p q]; [done|]. by destruct srv.
Qed.

Lemma service_loop_module_globals servers : forall sh,
  (service_loop Globals.module_globals servers sh).1
  = if forallb Rest.no_queue servers then Ok tt else Raise NameError.
Proof.
  induction servers as [|s rest IH]; intros sh; cbn [service_loop forallb]; [done|].
  unfold Rest.no_queue at 1.
  destruct (ServiceAgent.queue s) as [|p q] eqn:Hq; cbn [length Nat.ltb Nat.leb andb].
  - specialize (IH sh). by destruct (service_loop Globals.module_globals rest sh) as [r [l sh']].
  - pose proof (serve_module_globals_NameError s sh) as H. rewrite Hq in H.
    specialize (H ltac:(done)).
    destruct (ServiceAgent.serve Globals.module_globals (s, sh)) as [[[]|e] [s' sh']];
      cbn [fst] in *; [done|]. congruence.
Qed.

(** X13.  In the module's own namespace [service_passengers] returns when
    no server has a passenger waiting, and raises [NameError] otherwise. *)
Theorem service_passengers_module_namespace (st : ParallelServer.St) :
  (service_passengers Globals.module_globals st).1
  = if Rest.all_queues_empty st.1 then Ok tt else Raise NameError.
Proof.
  destruct st as [pool sh]. unfold service_passengers, Rest.all_queues_empty. cbn [fst snd].
  pose proof (service_loop_module_globals (server_list pool) sh) as H.
  by destruct (service_loop Globals.module_globals (server_list pool) sh) as [r [l sh']].
Qed.

Lemma service_loop_at_rest g servers sh :
  forallb Rest.no_queue servers = true ->
  service_loop g servers sh = (Ok tt, (servers, sh)).
Proof.
  induction servers as [|s rest IH]; cbn [service_loop forallb]; [done|].
  intros [Hs Hrest]%andb_prop. unfold Rest.no_queue in Hs.
  destruct (ServiceAgent.queue s); [|done]. cbn [length Nat.ltb Nat.leb].
  by rewrite IH.
Qed.

(** X14.  When no server has a passenger waiting, [service_passengers]
    returns and changes nothing, in every namespace: a server in the middle
    of a service whose queue is empty is not stepped. *)
Theorem service_passengers_at_rest (g : Globals.t) (st : ParallelServer.St) :
  Rest.all_queues_empty st.1 = true ->
  service_passengers g st = (Ok tt, st).
Proof.
  destruct st as [pool sh]. unfold service_passengers, Rest.all_queues_empty. cbn [fst snd].
  intros H. rewrite service_loop_at_rest by done. by destruct pool.
Qed.

(** A pool whose second booth is in service at tick 30. *)
Lemma service_passengers_at_rest_witness :
  Rest.all_queues_empty Rest.pool = true
  /\ service_passengers (Booth.at_tick 30) (Rest.pool, Booth.stamped)
     = (Ok tt, (Rest.pool, Booth.stamped)).
Proof.
  split; [reflexivity|].
  apply (service_passengers_at_rest (Booth.at_tick 30) (Rest.pool, Booth.stamped)).
  reflexivity.
Defined.

(** ** [adjust_schedule] and [optimize] *)

Lemma adjust_loop_seq k : forall h n cells,
  (h + k <= length cells)%nat ->
  Optimizer.adjust_loop (seq h k) n cells
  = (Ok tt, take h cells ++ repeat n k ++ drop (h + k) cells).
Proof.
  induction k as [|k IH]; intros h n cells Hlen; simpl.
  - by rewrite Nat.add_0_r, take_drop.
  - assert (Hh : (h < length cells)%nat) by lia.
    apply Nat.ltb_lt in Hh as Hb. rewrite Hb.
    rewrite IH by (rewrite length_insert; lia).
    f_equal.
    rewrite (take_S_r _ _ n) by (by apply list_lookup_insert_eq).
    rewrite take_insert_ge by lia.
    rewrite drop_insert_lt by lia.
    rewrite <- app_assoc. simpl.
    replace (h + S k)%nat with (S (h + k)) by lia. reflexivity.
Qed.

Lemma adjust_loop_short k : forall h n cells,
  (0 < k)%nat -> (length cells < h + k)%nat ->
  Optimizer.adjust_loop (seq h k) n cells
  = (Raise KeyError, take h cells ++ repeat n (length cells - h)).
Proof.
  induction k as [|k IH]; intros h n cells Hk Hlen; simpl.
  - lia.
  - destruct (h <? length cells)%nat eqn:Hb.
    + apply Nat.ltb_lt in Hb.
      rewrite IH by (rewrite ?length_insert; lia).
      rewrite length_insert. f_equal.
      rewrite (take_S_r _ _ n) by (by apply list_lookup_insert_eq).
      rewrite take_insert_ge by lia.
      rewrite <- app_assoc. simpl. f_equal.
      replace (length cells - h)%nat with (S (length cells - S h)) by lia.
      reflexivity.
    + apply Nat.ltb_ge in Hb.
      replace (length cells - h)%nat with 0%nat by lia.
      simpl. by rewrite app_nil_r, firstn_all2.
Qed.

(** X15.  [adjust_schedule] does nothing from hour 24 on.  Below that, on
    a schedule with the 24 hour cells it writes [num_servers] into the cells
    from [starting_hour] to 23 and nothing else; on a shorter schedule it
    writes the cells there are from [starting_hour] on and raises
    [KeyError]. *)
Theorem adjust_schedule_spec (starting_hour : nat) (num_servers : Z) (s : Optimizer.schedule) :
  let cells := Optimizer.hour_cells s in
  Optimizer.adjust_schedule starting_hour num_servers s =
  if (24 <=? starting_hour)%nat then (Ok tt, s)
  else if (24 <=? length cells)%nat then
    (Ok tt, Optimizer.mk (Optimizer.max_cell s)
              (take starting_hour cells ++ repeat num_servers (24 - starting_hour)
                 ++ drop 24 cells))
  else
    (Raise KeyError,
     Optimizer.mk (Optimizer.max_cell s)
       (take starting_hour cells ++ repeat num_servers (length cells - starting_hour))).
Proof.
  destruct s as [mx cells]. unfold Optimizer.adjust_schedule.
  cbn [Optimizer.hour_cells Optimizer.max_cell]. cbv zeta.
  destruct (Nat.leb_spec 24 starting_hour) as [H24|H24].
  - replace (24 - starting_hour)%nat with 0%nat by lia. reflexivity.
  - destruct (Nat.leb_spec 24 (length cells)) as [Hlen|Hlen].
    + rewrite adjust_loop_seq by lia.
      replace (starting_hour + (24 - starting_hour))%nat with 24%nat by lia. reflexivity.
    + rewrite adjust_loop_short by lia. reflexivity.
Qed.

(** ** [init_service_times] *)

Lemma sample_session `{NpRandom Rng} (rng : Rng) :
  (exists d rng', sample_from_triangular Session.service_dist_dom rng = (Ok d, rng'))
  /\ (exists d rng', sample_from_triangular Session.service_dist_intl rng = (Ok d, rng')).
Proof.
  unfold sample_from_triangular, Session.service_dist_dom, Session.service_dist_intl.
  change (_get_sec ("00:00:30", "00:01:00", "00:02:00").1.1) with (Ok (A := Z) 30).
  change (_get_sec ("00:00:30", "00:01:00", "00:02:00").1.2) with (Ok (A := Z) 60).
  change (_get_sec ("00:00:30", "00:01:00", "00:02:00").2) with (Ok (A := Z) 120).
  change (_get_sec ("00:01:00", "00:02:00", "00:04:00").1.1) with (Ok (A := Z) 60).
  change (_get_sec ("00:01:00", "00:02:00", "00:04:00").1.2) with (Ok (A := Z) 120).
  change (_get_sec ("00:01:00", "00:02:00", "00:04:00").2) with (Ok (A := Z) 240).
  unfold draw, lift, mbind, M_bind.
  split.
  - destruct (int_triangular 30 60 120 rng) as [d rng']. by exists d, rng'.
  - destruct (int_triangular 60 120 240 rng) as [d rng']. by exists d, rng'.
Qed.

Lemma update_row_person pid d f p :
  Rows.person (Session.update_row pid d f p) = Rows.person p.
Proof. unfold Session.update_row. by destruct (Db.p_id p =? pid). Qed.

Lemma update_row_timed pid d f p :
  Rows.timed (Session.update_row pid d f p) = (Db.p_id p =? pid) || Rows.timed p.
Proof. unfold Session.update_row. by destruct (Db.p_id p =? pid). Qed.

Lemma update_loop_spec `{NpRandom Rng} ids : forall (st : Session.St (Rng := Rng)),
  Db.has_service_time st.1 = true ->
  exists rows rng',
    Session.update_loop ids st
    = (Ok tt, (Db.mk (Db.arrivals st.1) (Db.airports st.1) rows true, rng'))
    /\ map Rows.person rows = map Rows.person (Db.passengers st.1)
    /\ map Rows.timed rows
       = map (fun p => existsb (Z.eqb (Db.p_id p)) ids || Rows.timed p) (Db.passengers st.1).
Proof.
  induction ids as [|pid rest IH]; intros [[arr air rows flag] rng]; cbn [fst Db.has_service_time];
    intros ->.
  - exists rows, rng. cbn. split; [done|]. split; [done|].
    apply map_ext. intros p. reflexivity.
  - cbn [Session.update_loop].
    destruct (sample_session rng) as [(d & rng1 & Hd) _].
    destruct (sample_session rng1) as [_ (f & rng2 & Hf)].
    unfold mbind at 1. unfold M_bind at 1. unfold Session.on_rng at 1. cbn [fst snd]. rewrite Hd.
    unfold mbind at 1. unfold M_bind at 1. unfold Session.on_rng at 1. cbn [fst snd]. rewrite Hf.
    unfold mbind at 1. unfold M_bind at 1. unfold Session.set_passengers, modify.
    cbn [fst snd Db.arrivals Db.airports Db.passengers].
    destruct (IH (Db.mk arr air (map (Session.update_row pid d f) rows) true, rng2) eq_refl)
      as (rows' & rng' & Hloop & Hperson & Htimed).
    rewrite Hloop. cbn [fst snd Db.arrivals Db.airports Db.passengers Db.has_service_time] in *.
    exists rows', rng'. split; [done|].
    split.
    + rewrite Hperson, map_map. apply map_ext. intros p. apply update_row_person.
    + rewrite Htimed, map_map. apply map_ext. intros p.
      rewrite update_row_timed.
      replace (Db.p_id (Session.update_row pid d f p)) with (Db.p_id p)
        by (unfold Session.update_row; by destruct (Db.p_id p =? pid)).
      cbn [existsb]. by destruct (Db.p_id p =? pid), (existsb _ rest), (Rows.timed p).
Qed.

(** X16.  On a database whose [passengers] table has no [service_time]
    column, [init_service_times] returns, leaves the other tables and the
    six columns of every passenger as they were, and gives every row a
    service time; a second call raises [OperationalError] and changes
    nothing. *)
Theorem init_service_times_once `{NpRandom Rng} (db : Db.t) (rng : Rng) :
  Db.has_service_time db = false ->
  let out := Session.init_service_times (db, rng) in
  out.1 = Ok tt
  /\ Db.arrivals out.2.1 = Db.arrivals db
  /\ Db.airports out.2.1 = Db.airports db
  /\ map Rows.person (Db.passengers out.2.1) = map Rows.person (Db.passengers db)
  /\ Forall (fun p => Rows.timed p = true) (Db.passengers out.2.1)
  /\ Session.init_service_times out.2 = (Raise OperationalError, out.2).
Proof.
  intros Hflag. cbv zeta.
  destruct (update_loop_spec (map Db.p_id (Db.passengers db))
              (Db.mk (Db.arrivals db) (Db.airports db) (Db.passengers db) true, rng) eq_refl)
    as (rows & rng' & Hloop & Hperson & Htimed).
  cbn [fst snd Db.arrivals Db.airports Db.passengers Db.has_service_time] in *.
  assert (Hout : Session.init_service_times (db, rng)
                 = (Ok tt, (Db.mk (Db.arrivals db) (Db.airports db) rows true, rng'))).
  { unfold Session.init_service_times.
    unfold mbind at 1. unfold M_bind at 1. cbn [get fst snd]. rewrite Hflag.
    unfold mbind, M_bind, Session.set_passengers, modify. cbn [fst snd].
    by rewrite Hloop. }
  rewrite Hout. cbn [fst snd Db.arrivals Db.airports Db.passengers Db.has_service_time].
  repeat split; try done.
  apply Forall_forall. intros p Hin.
  apply list_elem_of_In, (in_map Rows.timed) in Hin. rewrite Htimed in Hin.
  apply in_map_iff in Hin as (q & Hq & Hin). rewrite <- Hq.
  apply orb_true_iff. left. apply existsb_exists. exists (Db.p_id q).
  split; [by apply in_map | apply Z.eqb_refl].
Qed.

(** The one-flight database of [Rerun] with its counting generator. *)
Lemma init_service_times_once_witness :
  Db.has_service_time Rerun.db = false
  /\ Rerun.session.1 = Ok tt
  /\ Session.init_service_times (H := Rerun.counter) Rerun.session.2
     = (Raise OperationalError, Rerun.session.2).
Proof.
  pose proof (init_service_times_once (H := Rerun.counter) Rerun.db 0 eq_refl) as H.
  cbv zeta in H. destruct H as (H1 & _ & _ & _ & _ & H2). by split.
Defined.







Section Search.
Context {Sim : Type}.
Variable simulate : Optimizer.schedule -> Sim -> Optimizer.report * Sim.
Variable threshold : Z.




End Search.




Section Saturation.
Context {Sim : Type}.
Variable simulate : Optimizer.schedule -> Sim -> Optimizer.report * Sim.
Variable threshold : Z.
Hypothesis waits_high : forall s x, Forall (fun row : nat * Z => threshold <= row.2) (simulate s x).1.
Hypothesis hours_fixed : forall s x s' x',
  map fst (simulate s x).1 = map fst (simulate s' x').1.





End Saturation.



